(** * Location WebSocket server: position updates and stop queries

    A shallow embedding of [src/index.js] (the message handler and
    [updateBusLocation]), of the earlier revision of [updateBusLocation]
    that records stop passage on the trip it loaded (the first file of
    [src/unnamed/part_000]), and of the [ScheduledBus] schema of
    [src/model/scheduledbus.model.js].  The other revisions kept under
    [src/unnamed] share the handler and differ in how the distances are
    accumulated; they are not embedded.

    JavaScript numbers are modelled as rationals plus [NaN]; rounding of
    binary floating point is not modelled.  The document store is a record
    of three collections kept as lists in collection order; every handler
    runs in a small state-and-exception monad over the store, the console
    and the frames sent to the connected clients.  The pictograph that
    opens each console label in the source is left out of the labels. *)

From Stdlib Require Import ZArith QArith Qround Qabs String List Bool Lia Lqa.
From Stdlib Require Import Sorted.
Import ListNotations.

Set Implicit Arguments.

(* ------------------------------------------------------------------ *)
(** ** JavaScript numbers *)

Module JsNumber.

Local Open Scope Q_scope.

Inductive num : Type :=
| NaN : num
| Num : Q -> num.

(** [Number(undefined)] is [NaN]. *)
Definition ofOption (o : option Q) : num :=
  match o with
  | Some q => Num q
  | None => NaN
  end.

(** [Math.max(a, b)]: [NaN] as soon as one argument is. *)
Definition max (a b : num) : num :=
  match a, b with
  | Num x, Num y => Num (if Qle_bool x y then y else x)
  | _, _ => NaN
  end.

(** [Math.min(a, b)]. *)
Definition min (a b : num) : num :=
  match a, b with
  | Num x, Num y => Num (if Qle_bool x y then x else y)
  | _, _ => NaN
  end.

Definition mul (a b : num) : num :=
  match a, b with
  | Num x, Num y => Num (x * y)
  | _, _ => NaN
  end.

(** [a / b].  The model has no infinities: a zero divisor gives [NaN].
    No call site below divides by zero. *)
Definition div (a b : num) : num :=
  match a, b with
  | Num x, Num y => if Qeq_bool y 0 then NaN else Num (x / y)
  | _, _ => NaN
  end.

(** [a < b]: false when an operand is [NaN]. *)
Definition ltb (a b : num) : bool :=
  match a, b with
  | Num x, Num y => negb (Qle_bool y x)
  | _, _ => false
  end.

(** The integer [n] with [n / 100] closest to [x], for [0 <= x]; the
    larger one on a tie. *)
Definition hundredths (x : Q) : Z := Qfloor (x * 100 + (1 # 2)).

(** [x.toFixed(2)] read back as a number, which is what a
    [Number]-typed schema path stores.  Below zero the digits are those
    of [-x]; from [1e21] on, [toFixed] prints the number itself. *)
Definition toFixed2Q (x : Q) : Q :=
  if Qle_bool (10 ^ 21) (Qabs x) then x
  else if Qle_bool 0 x then inject_Z (hundredths x) / 100
       else - (inject_Z (hundredths (- x)) / 100).

Definition toFixed2 (a : num) : num :=
  match a with
  | Num x => Num (toFixed2Q x)
  | NaN => NaN
  end.

Definition isNaN (a : num) : bool :=
  match a with
  | NaN => true
  | Num _ => false
  end.

(** [lo <= a <= hi] for a number that is not [NaN]. *)
Definition between (lo hi : Q) (a : num) : Prop :=
  match a with
  | Num x => lo <= x /\ x <= hi
  | NaN => False
  end.

Definition atLeast (lo : Q) (a : num) : Prop :=
  match a with
  | Num x => lo <= x
  | NaN => False
  end.

End JsNumber.

(* ------------------------------------------------------------------ *)
(** ** Documents and collections *)

Module Model.

Definition ObjectId := string.

(** Milliseconds since the epoch, as [Date.prototype.getTime] gives. *)
Definition Date := Z.

(** Modelled from the spec: the [BusStop] model of [model/stops.model.js],
    whose source is missing.  A stop has an identity and a geographic
    coordinate; the handlers read [_id], [coordinates.lat] and
    [coordinates.lng], and test each of them for presence. *)
Record Coordinates : Type := {
  lat : option Q;
  lng : option Q
}.

Record BusStop : Type := {
  stop_id : ObjectId;
  coordinates : option Coordinates
}.

(** An element of [route.stops]. *)
Record RouteStop : Type := {
  stopId : ObjectId
}.

(** Modelled from the spec: the [Route] model of [model/route.model.js],
    whose source is missing.  A route has an identity, references to its
    origin and destination stops, a sequence of stop references and a total
    planned distance; the handlers test each of them for presence. *)
Record Route : Type := {
  route_id : ObjectId;
  origin : option ObjectId;
  destination : option ObjectId;
  stops : option (list RouteStop);
  totalDistance : option Q
}.

Record Location : Type := {
  latitude : option Q;
  longitude : option Q;
  lastUpdated : option Date
}.

(** An element of [leftAt]. *)
Record LeftAt : Type := {
  stop : ObjectId;
  time : Date
}.

(** The paths of [scheduledBusSchema] that the server reads or writes;
    [bus], [driver], the schedule times, [comments] and
    [realTimeTracking] are carried by the store unchanged and left out. *)
Record ScheduledBus : Type := {
  bus_id : ObjectId;
  route : ObjectId;
  distanceTraveled : option Q;
  distanceRemaining : option Q;
  speed : option Q;
  journeyCompletion : option Q;
  leftAt : list LeftAt;
  status : string;
  location : Location;
  createdAt : Date
}.

Record DB : Type := {
  scheduledBuses : list ScheduledBus;
  routes : list Route;
  busStops : list BusStop
}.

Definition findBus (d : DB) (id : ObjectId) : option ScheduledBus :=
  find (fun b => String.eqb (bus_id b) id) (scheduledBuses d).

Definition findRoute (d : DB) (id : ObjectId) : option Route :=
  find (fun r => String.eqb (route_id r) id) (routes d).

Definition findStop (d : DB) (id : ObjectId) : option BusStop :=
  find (fun s => String.eqb (stop_id s) id) (busStops d).

(** [populate] of a reference path: the referenced document, or [null]
    when the path is unset or names no document. *)
Definition populateStop (d : DB) (ref : option ObjectId) : option BusStop :=
  match ref with
  | Some id => findStop d id
  | None => None
  end.

(** [BusStop.find({ _id: { $in: ids } })], in collection order. *)
Definition findStopsIn (d : DB) (ids : list ObjectId) : list BusStop :=
  filter (fun s => existsb (String.eqb (stop_id s)) ids) (busStops d).

(** JavaScript truthiness of a numeric path: [undefined] and [0] are
    falsy. *)
Definition truthy (o : option Q) : bool :=
  match o with
  | Some q => negb (Qeq_bool q 0)
  | None => false
  end.

(** Truthiness of a string: [undefined] and the empty string are falsy. *)
Definition truthyStr (o : option string) : bool :=
  match o with
  | Some s => negb (String.eqb s EmptyString)
  | None => false
  end.

End Model.

(* ------------------------------------------------------------------ *)
(** ** Effects: store, error log, frames sent, exceptions *)

Module Eff.

Import Model.
Local Open Scope string_scope.

Inductive Error : Type :=
| Err (message : string)
| ReferenceError (identifier : string)
| TypeError (message : string)
| SyntaxError
| CastError (path : string)
| StoreError.

(** [error.message]. *)
Definition message (e : Error) : string :=
  match e with
  | Err m => m
  | ReferenceError x => x ++ " is not defined"
  | TypeError m => m
  | SyntaxError => "Unexpected token in JSON"
  | CastError p => "Cast to Number failed at path " ++ p
  | StoreError => "store unavailable"
  end.

Inductive Result (A : Type) : Type :=
| Ok : A -> Result A
| Throw : Error -> Result A.
Arguments Ok {A} _.
Arguments Throw {A} _.

(** A frame written to a socket, before [JSON.stringify]. *)
Inductive Frame : Type :=
| ErrorFrame (error : string)
| BusUpdate (buses : list ScheduledBus)
| BusStopResponse (buses : list ScheduledBus).

(** A member of [wss.clients]. *)
Record Client : Type := {
  client_id : nat;
  readyStateOpen : bool
}.

Record World : Type := {
  db : DB;
  (** whether the store applies the next update it is sent *)
  writeAccepted : bool;
  clients : list Client;
  (** frames sent so far, oldest first, with the receiving client *)
  sent : list (nat * Frame);
  (** console lines so far, oldest first: label and detail *)
  console : list (string * string)
}.

Definition M (A : Type) : Type := World -> Result A * World.

Definition ret {A} (a : A) : M A := fun w => (Ok a, w).

Definition bind {A B} (m : M A) (k : A -> M B) : M B :=
  fun w =>
    match m w with
    | (Ok a, w') => k a w'
    | (Throw e, w') => (Throw e, w')
    end.

Definition throw {A} (e : Error) : M A := fun w => (Throw e, w).

(** [try { m } catch (error) { h error }] *)
Definition tryCatch {A} (m : M A) (h : Error -> M A) : M A :=
  fun w =>
    match m w with
    | (Ok a, w') => (Ok a, w')
    | (Throw e, w') => h e w'
    end.

Definition getDb : M DB := fun w => (Ok (db w), w).

Definition lift {A} (r : Result A) : M A := fun w => (r, w).

(** The world after one more console line. *)
Definition addLine (w : World) (label detail : string) : World :=
  {| db := db w; writeAccepted := writeAccepted w; clients := clients w;
     sent := sent w; console := console w ++ [(label, detail)] |}.

(** The world after more frames were sent. *)
Definition addSent (w : World) (frames : list (nat * Frame)) : World :=
  {| db := db w; writeAccepted := writeAccepted w; clients := clients w;
     sent := sent w ++ frames; console := console w |}.

Definition consoleError (label detail : string) : M unit :=
  fun w => (Ok tt, addLine w label detail).

(** [console.log] writes its line to the same console. *)
Definition consoleLog (label detail : string) : M unit :=
  consoleError label detail.

(** [ws.send(JSON.stringify(frame))] on the socket of client [ws]. *)
Definition send (ws : nat) (frame : Frame) : M unit :=
  fun w => (Ok tt, addSent w [(ws, frame)]).

(** The frames of [wss.clients.forEach(client => { if (client.readyState
    === ws.OPEN) client.send(...) })]. *)
Definition toOpenClients (w : World) (frame : Frame) : list (nat * Frame) :=
  map (fun c => (client_id c, frame)) (filter readyStateOpen (clients w)).

Definition broadcast (frame : Frame) : M unit :=
  fun w => (Ok tt, addSent w (toOpenClients w frame)).

(** The world with another store content. *)
Definition withDb (w : World) (d : DB) : World :=
  {| db := d; writeAccepted := writeAccepted w; clients := clients w;
     sent := sent w; console := console w |}.

Definition setDb (d : DB) : M unit := fun w => (Ok tt, withDb w d).

Definition getWriteAccepted : M bool := fun w => (Ok (writeAccepted w), w).

End Eff.

Declare Scope eff_scope.
Delimit Scope eff_scope with eff.
Notation "x <- m ;; k" := (Eff.bind m (fun x => k))
  (at level 61, m at next level, right associativity) : eff_scope.
Notation "m ;;; k" := (Eff.bind m (fun _ => k))
  (at level 61, right associativity) : eff_scope.

(* ------------------------------------------------------------------ *)
(** ** The store's update call *)

Module Mongoose.

Import JsNumber Model Eff.
Local Open Scope string_scope.
Local Open Scope eff_scope.

(** The object given to [$set].  [speed] and [leftAt] are keys that one
    revision or another leaves out. *)
Record UpdateFields : Type := {
  set_latitude : Q;
  set_longitude : Q;
  set_lastUpdated : Date;
  set_distanceTraveled : num;
  set_distanceRemaining : num;
  set_journeyCompletion : num;
  set_speed : option num;
  set_leftAt : option (list LeftAt)
}.

(** Casting to a [Number] path: a value that is not a number fails. *)
Definition castNumber (path : string) (v : num) : Result Q :=
  match v with
  | Num q => Ok q
  | NaN => Throw (CastError path)
  end.

Definition castOptional (path : string) (v : option num) : Result (option Q) :=
  match v with
  | None => Ok None
  | Some n =>
      match castNumber path n with
      | Ok q => Ok (Some q)
      | Throw e => Throw e
      end
  end.

(** [$set] of cast fields followed by [$push ... $each] on [leftAt].  A
    key that is not in the object leaves its path as it was.  Update
    validators are off, so [min] and [max] of the location paths are not
    consulted. *)
Definition applyUpdate (f : UpdateFields) (dt dr jc : Q) (sp : option Q)
           (push : list LeftAt) (doc : ScheduledBus) : ScheduledBus :=
  {| bus_id := bus_id doc;
     route := route doc;
     distanceTraveled := Some dt;
     distanceRemaining := Some dr;
     speed := match sp with Some s => Some s | None => speed doc end;
     journeyCompletion := Some jc;
     leftAt := match set_leftAt f with
               | Some l => l
               | None => leftAt doc
               end ++ push;
     status := status doc;
     location := {| latitude := Some (set_latitude f);
                    longitude := Some (set_longitude f);
                    lastUpdated := Some (set_lastUpdated f) |};
     createdAt := createdAt doc |}.

(** Replace the first document whose [_id] is [id]. *)
Fixpoint replaceById (id : ObjectId) (doc' : ScheduledBus)
         (l : list ScheduledBus) : list ScheduledBus :=
  match l with
  | [] => []
  | b :: rest =>
      if String.eqb (bus_id b) id then doc' :: rest
      else b :: replaceById id doc' rest
  end.

Definition withBuses (d : DB) (l : list ScheduledBus) : DB :=
  {| scheduledBuses := l; routes := routes d; busStops := busStops d |}.

(** [ScheduledBus.findById(id)] *)
Definition findById (id : ObjectId) : M (option ScheduledBus) :=
  d <- getDb ;; ret (findBus d id).

(** [ScheduledBus.find()] *)
Definition findAll : M (list ScheduledBus) :=
  d <- getDb ;; ret (scheduledBuses d).

(** [ScheduledBus.findByIdAndUpdate(id, { $set, $push }, { new: true })]:
    one atomic call of the store.  It either rejects and changes nothing,
    or applies the whole update and returns the new document ([null] when
    no document has that [_id]). *)
Definition findByIdAndUpdate (id : ObjectId) (f : UpdateFields)
           (push : list LeftAt) : M (option ScheduledBus) :=
  dt <- lift (castNumber "distanceTraveled" (set_distanceTraveled f)) ;;
  dr <- lift (castNumber "distanceRemaining" (set_distanceRemaining f)) ;;
  jc <- lift (castNumber "journeyCompletion" (set_journeyCompletion f)) ;;
  sp <- lift (castOptional "speed" (set_speed f)) ;;
  up <- getWriteAccepted ;;
  if negb up then throw StoreError
  else
    d <- getDb ;;
    match findBus d id with
    | None => ret None
    | Some doc =>
        let doc' := applyUpdate f dt dr jc sp push doc in
        setDb (withBuses d (replaceById id doc' (scheduledBuses d))) ;;;
        ret (Some doc')
    end.

End Mongoose.

(* ------------------------------------------------------------------ *)
(** ** [utils/time.js] *)

Module TimeUtils.

Import JsNumber Model.

(** [haversineDistance(lat1, lng1, lat2, lng2)], in kilometres.  The
    function is imported from a file that is not part of the sources at
    hand; the development is parametric in it. *)
Class Geo : Type := {
  haversineDistance : num -> num -> num -> num -> num
}.

Definition msPerHour : Q := 3600000.

(** Modelled from the spec: [calculateSpeed] of [utils/time.js], whose
    source is missing.  It is absent ([null]) when there is no previous
    fix or when the current time does not exceed the time of the previous
    fix; otherwise it is the distance between the two fixes divided by
    the elapsed time in hours.  The call sites pass five arguments; the
    current time is read by the function and is [curTime] here. *)
Definition calculateSpeed `{Geo} (prevLat prevLng : option Q)
           (prevTime : option Date) (curLat curLng : Q) (curTime : Date)
  : option num :=
  match prevLat, prevLng, prevTime with
  | Some pLat, Some pLng, Some pTime =>
      if (curTime <=? pTime)%Z then None
      else Some (div (haversineDistance (Num pLat) (Num pLng)
                                        (Num curLat) (Num curLng))
                     (Num (inject_Z (curTime - pTime) / msPerHour)))
  | _, _, _ => None
  end.

End TimeUtils.

(* ------------------------------------------------------------------ *)
(** ** The parts of [updateBusLocation] that its revisions share *)

Module Common.

Import JsNumber Model Eff Mongoose TimeUtils.
Local Open Scope string_scope.

Definition notFound : string := "Scheduled bus not found".
Definition routeInvalid : string :=
  "Route data is invalid or missing required details".
Definition noStops : string := "No stops found for this route".
Definition updateFailed : string := "Error updating bus location".

(** What the guard on the populated route leaves in hand: [origin] and
    [destination] populated to stop documents, [stops] defined and
    [totalDistance] truthy. *)
Record ResolvedRoute : Type := {
  r_origin : BusStop;
  r_destination : BusStop;
  r_stops : list RouteStop;
  r_totalDistance : Q
}.

(** [const { location, route } = scheduledBus;
     if (!route || !route.origin || !route.destination || !route.stops
         || !route.totalDistance) throw ...]
    on the trip populated with its route, and the route with its origin
    and destination. *)
Definition checkRoute (d : DB) (scheduledBus : ScheduledBus)
  : Result ResolvedRoute :=
  match findRoute d (Model.route scheduledBus) with
  | None => Throw (Err routeInvalid)
  | Some route =>
      match populateStop d (origin route),
            populateStop d (destination route),
            stops route with
      | Some o, Some dst, Some ss =>
          match totalDistance route with
          | Some t =>
              if truthy (Some t)
              then Ok {| r_origin := o; r_destination := dst;
                         r_stops := ss; r_totalDistance := t |}
              else Throw (Err routeInvalid)
          | None => Throw (Err routeInvalid)
          end
      | _, _, _ => Throw (Err routeInvalid)
      end
  end.

(** [BusStop.find({ '_id': { $in: route.stops.map(stop => stop.stopId) } })] *)
Definition routeStopDocs (d : DB) (r : ResolvedRoute) : list BusStop :=
  findStopsIn d (map stopId (r_stops r)).

Section WithGeo.

Context `{Geo}.

(** [stops.find(stop => haversineDistance(latitude, longitude,
    stop.coordinates.lat, stop.coordinates.lng) < THRESHOLD_DISTANCE)]:
    the first such stop.  Reading [lat] of a stop without
    [coordinates] throws. *)
Fixpoint findPassedStop (threshold : Q) (latitude longitude : Q)
         (ss : list BusStop) : Result (option BusStop) :=
  match ss with
  | [] => Ok None
  | s :: rest =>
      match coordinates s with
      | None => Throw (TypeError "Cannot read properties of undefined (reading 'lat')")
      | Some c =>
          if ltb (haversineDistance (Num latitude) (Num longitude)
                                    (ofOption (lat c)) (ofOption (lng c)))
                 (Num threshold)
          then Ok (Some s)
          else findPassedStop threshold latitude longitude rest
      end
  end.

(** The distance and speed figures of one update, from the start of
    "Distance calculations" to [if (speed !== null) updateFields.speed
    = speed]: distance from the origin, distance to the destination
    floored at zero, completion clamped to [0, 100], each printed with
    two decimals; [speed] is a key only when [calculateSpeed] gave a
    value. *)
Definition updateFields (oLat oLng dLat dLng : num) (total : Q)
           (location : Location) (latitude longitude : Q) (now : Date)
           (leftAtKey : option (list LeftAt)) : UpdateFields :=
  let prevLat := Model.latitude location in
  let prevLng := Model.longitude location in
  let prevTimestamp := lastUpdated location in
  let distanceFromOrigin :=
    haversineDistance oLat oLng (Num latitude) (Num longitude) in
  let remainingDistance :=
    haversineDistance (Num latitude) (Num longitude) dLat dLng in
  let completionPercentage :=
    mul (div distanceFromOrigin (Num total)) (Num 100) in
  let remainingDistance := max remainingDistance (Num 0) in
  let completionPercentage :=
    max (Num 0) (min completionPercentage (Num 100)) in
  let speed :=
    calculateSpeed prevLat prevLng prevTimestamp latitude longitude now in
  {| set_latitude := latitude;
     set_longitude := longitude;
     set_lastUpdated := now;
     set_distanceTraveled := toFixed2 distanceFromOrigin;
     set_distanceRemaining := toFixed2 remainingDistance;
     set_journeyCompletion := toFixed2 completionPercentage;
     set_speed := speed;
     set_leftAt := leftAtKey |}.

End WithGeo.

(** [catch (error) { console.error("Error updating bus location:",
    error.message); throw new Error("Error updating bus location"); }] *)
Definition rethrow {A} (error : Error) : M A :=
  Eff.bind (consoleError "Error updating bus location:" (message error))
           (fun _ => throw (Err updateFailed)).

End Common.

(* ------------------------------------------------------------------ *)
(** ** [updateBusLocation] of [src/index.js] *)

Module Index.

Import JsNumber Model Eff Mongoose TimeUtils Common.
Local Open Scope string_scope.
Local Open Scope eff_scope.

Definition THRESHOLD_DISTANCE : Q := 5 # 10.

(** Every binding in scope inside [updateBusLocation]: the globals that
    the module uses, the imports and constants of the module, the
    parameters and the [const]s of the function, and the parameters of its
    arrow functions. *)
Definition bindings : list string :=
  [ "console"; "process"; "JSON"; "Math"; "Date"; "Error";
    "WebSocketServer"; "express"; "http"; "ScheduledBus";
    "haversineDistance"; "calculateSpeed"; "dotenv"; "BusStop";
    "connectDB"; "app"; "server"; "wss"; "PORT"; "updateBusLocation";
    "scheduledBusId"; "latitude"; "longitude"; "scheduledBus";
    "location"; "route"; "stops"; "prevLat"; "prevLng"; "prevTimestamp";
    "distanceFromOrigin"; "remainingDistance"; "completionPercentage";
    "speed"; "updateFields"; "THRESHOLD_DISTANCE"; "passedStop";
    "stopId"; "alreadyRecorded"; "updatedBus"; "stop"; "entry";
    "distanceToStop"; "error" ].

Definition bound (x : string) : bool := existsb (String.eqb x) bindings.

(** Reading an identifier that nothing binds throws at the read.  The
    proof argument makes the definition usable for such identifiers
    only. *)
Definition freeIdentifier {A} (x : string) (_ : bound x = false) : M A :=
  throw (ReferenceError x).

(** An element of [busData.leftAt]: [{ stop: { "$oid": ... }, time:
    { "$date": ... } }]. *)
Record OidEntry : Type := {
  stop_oid : ObjectId;
  time_date : Date
}.

Record BusData : Type := {
  busData_leftAt : option (list OidEntry)
}.

(** [if (!busData.leftAt) { busData.leftAt = []; }] *)
Definition ensureLeftAt (busData : BusData) : list OidEntry :=
  match busData_leftAt busData with
  | Some l => l
  | None => []
  end.

(** [if (passedStop) { ... if (!alreadyRecorded) busData.leftAt.push(...) }] *)
Definition recordPassed (entries : list OidEntry) (passedStop : option BusStop)
           (now : Date) : list OidEntry :=
  match passedStop with
  | None => entries
  | Some s =>
      let stopId := stop_id s in
      let alreadyRecorded :=
        existsb (fun entry => String.eqb (stop_oid entry) stopId) entries in
      if alreadyRecorded then entries
      else entries ++ [ {| stop_oid := stopId; time_date := now |} ]
  end.

(** [if (!route.origin.coordinates || !route.origin.coordinates.lat ||
    !route.origin.coordinates.lng) throw new Error(msg)] *)
Definition requireCoordinates (s : BusStop) (msg : string) : Result (Q * Q) :=
  match coordinates s with
  | Some c =>
      match lat c, lng c with
      | Some la, Some lo =>
          if truthy (Some la) && truthy (Some lo) then Ok (la, lo)
          else Throw (Err msg)
      | _, _ => Throw (Err msg)
      end
  | None => Throw (Err msg)
  end.

Section WithGeo.

Context `{Geo}.

(** The body of the [try] block. *)
Definition tryBlock (scheduledBusId : ObjectId) (latitude longitude : Q)
           (now : Date) : M (option ScheduledBus) :=
  d <- getDb ;;
  found <- findById scheduledBusId ;;
  match found with
  | None => throw (Err notFound)
  | Some scheduledBus =>
      route <- lift (checkRoute d scheduledBus) ;;
      let stops := routeStopDocs d route in
      if (length stops =? 0)%nat then throw (Err noStops)
      else
        o <- lift (requireCoordinates (r_origin route)
                     "Origin coordinates are missing or invalid") ;;
        dst <- lift (requireCoordinates (r_destination route)
                       "Destination coordinates are missing or invalid") ;;
        let fields :=
          updateFields (Num (fst o)) (Num (snd o))
                       (Num (fst dst)) (Num (snd dst))
                       (r_totalDistance route)
                       (Model.location scheduledBus)
                       latitude longitude now None in
        busData <- freeIdentifier "busData" eq_refl ;;
        let entries := ensureLeftAt busData in
        passedStop <- lift (findPassedStop THRESHOLD_DISTANCE
                                           latitude longitude stops) ;;
        let entries := recordPassed entries passedStop now in
        passedStops <- freeIdentifier (A := list BusStop)
                         "passedStops" eq_refl ;;
        findByIdAndUpdate scheduledBusId fields
          (map (fun stop => {| Model.stop := stop_id stop; time := now |})
               passedStops)
  end.

Definition updateBusLocation (scheduledBusId : ObjectId)
           (latitude longitude : Q) (now : Date)
  : M (option ScheduledBus) :=
  tryCatch (tryBlock scheduledBusId latitude longitude now) rethrow.

End WithGeo.

End Index.

(* ------------------------------------------------------------------ *)
(** ** [updateBusLocation] of [src/unnamed/part_000], first file: the
       revision that keeps [leftAt] on the trip *)

Module Draft1.

Import JsNumber Model Eff Mongoose TimeUtils Common.
Local Open Scope string_scope.
Local Open Scope eff_scope.

Definition THRESHOLD_DISTANCE : Q := 1 # 100.

(** [route.origin.coordinates.lat], [.lng]: reading through missing
    [coordinates] throws; a missing [lat] or [lng] is [undefined]. *)
Definition readCoordinates (s : BusStop) : Result (num * num) :=
  match coordinates s with
  | Some c => Ok (ofOption (lat c), ofOption (lng c))
  | None =>
      Throw (TypeError "Cannot read properties of undefined (reading 'lat')")
  end.

(** [if (passedStop) { const alreadyRecorded = leftAt.some(entry =>
    entry.stop.toString() === stopId.toString());
    if (!alreadyRecorded) leftAt.push({ stop: stopId, time: new Date() }) }].
    The push changes the array of the document that was loaded; the store
    sees it only through the update call that follows. *)
Definition recordPassed (leftAt : list LeftAt) (passedStop : option BusStop)
           (now : Date) : list LeftAt :=
  match passedStop with
  | None => leftAt
  | Some s =>
      let stopId := stop_id s in
      let alreadyRecorded :=
        existsb (fun entry => String.eqb (stop entry) stopId) leftAt in
      if alreadyRecorded then leftAt
      else leftAt ++ [ {| stop := stopId; time := now |} ]
  end.

Section WithGeo.

Context `{Geo}.

Definition tryBlock (scheduledBusId : ObjectId) (latitude longitude : Q)
           (now : Date) : M (option ScheduledBus) :=
  d <- getDb ;;
  found <- findById scheduledBusId ;;
  match found with
  | None => throw (Err notFound)
  | Some scheduledBus =>
      let leftAt := Model.leftAt scheduledBus in
      route <- lift (checkRoute d scheduledBus) ;;
      let stops := routeStopDocs d route in
      if (length stops =? 0)%nat then throw (Err noStops)
      else
        o <- lift (readCoordinates (r_origin route)) ;;
        dst <- lift (readCoordinates (r_destination route)) ;;
        passedStop <- lift (findPassedStop THRESHOLD_DISTANCE
                                           latitude longitude stops) ;;
        let leftAt := recordPassed leftAt passedStop now in
        let fields :=
          updateFields (fst o) (snd o) (fst dst) (snd dst)
                       (r_totalDistance route)
                       (Model.location scheduledBus)
                       latitude longitude now (Some leftAt) in
        findByIdAndUpdate scheduledBusId fields []
  end.

Definition updateBusLocation (scheduledBusId : ObjectId)
           (latitude longitude : Q) (now : Date)
  : M (option ScheduledBus) :=
  tryCatch (tryBlock scheduledBusId latitude longitude now) rethrow.

End WithGeo.

End Draft1.

(* ------------------------------------------------------------------ *)
(** ** [updateBusLocation] of [src/unnamed/part_001]: the revision without
       stop passage *)

Module Draft4.

Import JsNumber Model Eff Mongoose TimeUtils Common.
Local Open Scope string_scope.
Local Open Scope eff_scope.

Definition stopNotFound : string := "Origin or destination stop not found".

(** What the guard leaves in hand on a trip populated with its route
    only: the references to origin and destination, and a truthy
    [totalDistance]. *)
Record RouteRefs : Type := {
  ref_origin : ObjectId;
  ref_destination : ObjectId;
  ref_totalDistance : Q
}.

(** [if (!route || !route.origin || !route.destination ||
    !route.totalDistance) throw ...] *)
Definition checkRouteRefs (d : DB) (scheduledBus : ScheduledBus)
  : Result RouteRefs :=
  match findRoute d (Model.route scheduledBus) with
  | None => Throw (Err routeInvalid)
  | Some route =>
      match origin route, destination route, totalDistance route with
      | Some o, Some dst, Some t =>
          if truthy (Some t)
          then Ok {| ref_origin := o; ref_destination := dst;
                     ref_totalDistance := t |}
          else Throw (Err routeInvalid)
      | _, _, _ => Throw (Err routeInvalid)
      end
  end.

Section WithGeo.

Context `{Geo}.

Definition tryBlock (scheduledBusId : ObjectId) (latitude longitude : Q)
           (now : Date) : M (option ScheduledBus) :=
  d <- getDb ;;
  found <- findById scheduledBusId ;;
  match found with
  | None => throw (Err notFound)
  | Some scheduledBus =>
      route <- lift (checkRouteRefs d scheduledBus) ;;
      match findStop d (ref_origin route),
            findStop d (ref_destination route) with
      | Some originStop, Some destinationStop =>
          o <- lift (Draft1.readCoordinates originStop) ;;
          dst <- lift (Draft1.readCoordinates destinationStop) ;;
          let fields :=
            updateFields (fst o) (snd o) (fst dst) (snd dst)
                         (ref_totalDistance route)
                         (Model.location scheduledBus)
                         latitude longitude now None in
          findByIdAndUpdate scheduledBusId fields []
      | _, _ => throw (Err stopNotFound)
      end
  end.

Definition updateBusLocation (scheduledBusId : ObjectId)
           (latitude longitude : Q) (now : Date)
  : M (option ScheduledBus) :=
  tryCatch (tryBlock scheduledBusId latitude longitude now) rethrow.

End WithGeo.

End Draft4.

(* ------------------------------------------------------------------ *)
(** ** [updateBusLocation] of [src/unnamed/part_000], second file: the
       revision that adds up the distance between fixes

    The third file of [src/unnamed/part_000] looks the stops of the route
    up by the sub-documents of [route.stops] instead of their [stopId];
    what the store matches then is outside this model, and that revision
    is not embedded. *)

Module Draft2.

Import JsNumber Model Eff Mongoose TimeUtils Common.
Local Open Scope string_scope.
Local Open Scope eff_scope.

Definition routeInvalid2 : string :=
  "Route data is invalid or missing origin/destination".
Definition destinationMissing : string :=
  "Destination coordinates are missing".

(** [a + b] *)
Definition add (a b : num) : num :=
  match a, b with
  | Num x, Num y => Num (x + y)%Q
  | _, _ => NaN
  end.

(** [const { location, distanceTravelled = 0, route } = scheduledBus]: the
    schema has a path [distanceTraveled] and none called
    [distanceTravelled], so the document has no such property and the
    default applies. *)
Definition distanceTravelled (scheduledBus : ScheduledBus) : num := Num 0.

(** [if (!route || !route.origin || !route.destination) throw ...]: the
    reference to the destination. *)
Definition checkRouteEnds (d : DB) (scheduledBus : ScheduledBus)
  : Result ObjectId :=
  match findRoute d (Model.route scheduledBus) with
  | None => Throw (Err routeInvalid2)
  | Some route =>
      match origin route, destination route with
      | Some _, Some dst => Ok dst
      | _, _ => Throw (Err routeInvalid2)
      end
  end.

(** [if (!destination || !destination.coordinates.lat ||
    !destination.coordinates.lng) throw ...]; reading [lat] through
    missing [coordinates] throws before the test is made. *)
Definition requireDestination (destination : option BusStop)
  : Result (Q * Q) :=
  match destination with
  | None => Throw (Err destinationMissing)
  | Some s =>
      match coordinates s with
      | None =>
          Throw (TypeError "Cannot read properties of undefined (reading 'lat')")
      | Some c =>
          match lat c, lng c with
          | Some la, Some lo =>
              if truthy (Some la) && truthy (Some lo) then Ok (la, lo)
              else Throw (Err destinationMissing)
          | _, _ => Throw (Err destinationMissing)
          end
      end
  end.

(** [if (isNaN(x) || x < 0) x = 0] *)
Definition zeroIfNaNOrNegative (x : num) : num :=
  if isNaN x || ltb x (Num 0) then Num 0 else x.

Section WithGeo.

Context `{Geo}.

(** [let distanceIncrement = 0; if (prevLat && prevLng) distanceIncrement
    = haversineDistance(prevLat, prevLng, latitude, longitude)] *)
Definition distanceIncrement (location : Location) (latitude longitude : Q)
  : num :=
  match Model.latitude location, Model.longitude location with
  | Some prevLat, Some prevLng =>
      if truthy (Some prevLat) && truthy (Some prevLng)
      then haversineDistance (Num prevLat) (Num prevLng)
                             (Num latitude) (Num longitude)
      else Num 0
  | _, _ => Num 0
  end.

(** The completion before it is tested: [(newDistanceTravelled /
    (newDistanceTravelled + remainingDistance)) * 100].  Where JavaScript
    gives an infinity this gives [NaN]; the only infinity that can arise
    here is the negative one, which the test that follows turns into 0
    like [NaN]. *)
Definition rawCompletion (newDistanceTravelled remainingDistance : num) : num :=
  mul (div newDistanceTravelled (add newDistanceTravelled remainingDistance))
      (Num 100).

(** The update document of this revision. *)
Definition updateFields2 (scheduledBus : ScheduledBus) (dLat dLng : Q)
           (latitude longitude : Q) (now : Date) : UpdateFields :=
  let location := Model.location scheduledBus in
  let newDistanceTravelled :=
    add (distanceTravelled scheduledBus)
        (distanceIncrement location latitude longitude) in
  let remainingDistance :=
    zeroIfNaNOrNegative
      (haversineDistance (Num latitude) (Num longitude) (Num dLat) (Num dLng)) in
  let completionPercentage :=
    zeroIfNaNOrNegative (rawCompletion newDistanceTravelled remainingDistance) in
  let speed :=
    calculateSpeed (Model.latitude location) (Model.longitude location)
                   (lastUpdated location) latitude longitude now in
  {| set_latitude := latitude;
     set_longitude := longitude;
     set_lastUpdated := now;
     set_distanceTraveled := toFixed2 newDistanceTravelled;
     set_distanceRemaining := toFixed2 remainingDistance;
     set_journeyCompletion := toFixed2 completionPercentage;
     set_speed := speed;
     set_leftAt := None |}.

(** The body of the [try] block.  [console.log(completionPercentage)]
    writes one line; which digits it prints is not modelled. *)
Definition tryBlock (scheduledBusId : ObjectId) (latitude longitude : Q)
           (now : Date) : M (option ScheduledBus) :=
  d <- getDb ;;
  found <- findById scheduledBusId ;;
  match found with
  | None => throw (Err notFound)
  | Some scheduledBus =>
      destinationRef <- lift (checkRouteEnds d scheduledBus) ;;
      dst <- lift (requireDestination (findStop d destinationRef)) ;;
      consoleLog "completionPercentage" "" ;;;
      findByIdAndUpdate scheduledBusId
        (updateFields2 scheduledBus (fst dst) (snd dst) latitude longitude now)
        []
  end.

Definition updateBusLocation (scheduledBusId : ObjectId)
           (latitude longitude : Q) (now : Date)
  : M (option ScheduledBus) :=
  tryCatch (tryBlock scheduledBusId latitude longitude now) rethrow.

End WithGeo.

End Draft2.

(* ------------------------------------------------------------------ *)
(** ** The [paginate] plugin *)

Module Paginate.

Import Model.

Fixpoint insertByCreatedAt (b : ScheduledBus) (l : list ScheduledBus)
  : list ScheduledBus :=
  match l with
  | [] => [b]
  | x :: rest =>
      if (createdAt b <=? createdAt x)%Z then b :: l
      else x :: insertByCreatedAt b rest
  end.

(** Modelled from the spec: the ordering of the [paginate] plugin for
    [sortBy: 'createdAt:asc'].  Trips created at the same instant keep
    their collection order. *)
Definition sortByCreatedAt (l : list ScheduledBus) : list ScheduledBus :=
  fold_right insertByCreatedAt [] l.

(** Modelled from the spec: the [paginate] plugin of [model/plugins],
    whose source is missing.  With the empty filter it orders the
    collection by creation time ascending and returns, as [results], the
    [limit] documents of page [page]. *)
Definition paginate (page limit : nat) (l : list ScheduledBus)
  : list ScheduledBus :=
  firstn limit (skipn ((page - 1) * limit) (sortByCreatedAt l)).

End Paginate.

(* ------------------------------------------------------------------ *)
(** ** The message handler of [wss.on("connection")] *)

Module Server.

Import JsNumber Model Eff Mongoose Paginate.
Local Open Scope string_scope.
Local Open Scope eff_scope.

(** [JSON.parse(message)], by [data.type].  A field is [None] when the
    message lacks it; a latitude or longitude that is present is a
    number.  [OtherType] is an object, or a number, string or boolean,
    whose [type] is neither of the two; [ParsedNull] is the message
    [null], on which reading [type] throws. *)
Inductive Message : Type :=
| LocationUpdate (scheduledBusId : option ObjectId)
                 (latitude longitude : option Q)
| BusStopRequest (busStopId : option ObjectId)
                 (status : option (list string))
| OtherType
| ParsedNull
| Unparseable.

Definition invalidData : string := "Invalid data format".
Definition stopIdRequired : string := "Bus stop ID is required".
Definition requestFailed : string := "Failed to process request".

(** [l.some(p)] for a callback that may throw. *)
Fixpoint someR {A} (p : A -> Result bool) (l : list A) : Result bool :=
  match l with
  | [] => Ok false
  | x :: rest =>
      match p x with
      | Ok true => Ok true
      | Ok false => someR p rest
      | Throw e => Throw e
      end
  end.

(** [l.filter(p)] for a callback that may throw. *)
Fixpoint filterR {A} (p : A -> Result bool) (l : list A) : Result (list A) :=
  match l with
  | [] => Ok []
  | x :: rest =>
      match p x with
      | Ok keep =>
          match filterR p rest with
          | Ok rest' => Ok (if keep then x :: rest' else rest')
          | Throw e => Throw e
          end
      | Throw e => Throw e
      end
  end.

(** [schedule.route.stops.some(stop => stop.stopId._id.toString() ===
    busStopId)] on a trip populated with [route] and
    [route.stops.stopId]: a reference that names no document is
    populated to [null], and reading through it throws.  The later
    [populate] of [route.origin] and [route.destination] changes nothing
    that the filters read. *)
Definition stopMatches (d : DB) (busStopId : ObjectId)
           (schedule : ScheduledBus) : Result bool :=
  match findRoute d (Model.route schedule) with
  | None => Throw (TypeError "Cannot read properties of null (reading 'stops')")
  | Some r =>
      match stops r with
      | None => Throw (TypeError "Cannot read properties of undefined (reading 'some')")
      | Some ss =>
          someR (fun stop =>
                   match findStop d (stopId stop) with
                   | None => Throw (TypeError "Cannot read properties of null (reading '_id')")
                   | Some s => Ok (String.eqb (stop_id s) busStopId)
                   end) ss
      end
  end.

(** [status.includes(schedule.status)] *)
Definition includes (status : list string) (s : string) : bool :=
  existsb (String.eqb s) status.

(** The negation of the guard [!scheduledBusId || latitude === undefined
    || longitude === undefined]. *)
Definition hasFields (scheduledBusId : option ObjectId)
           (latitude longitude : option Q) : bool :=
  match scheduledBusId, latitude, longitude with
  | Some id, Some _, Some _ => truthyStr (Some id)
  | _, _, _ => false
  end.

Section Handler.

Variable updateBusLocation :
  ObjectId -> Q -> Q -> Date -> M (option ScheduledBus).

Definition onLocationUpdate (ws : nat) (scheduledBusId : option ObjectId)
           (latitude longitude : option Q) (now : Date) : M unit :=
  match scheduledBusId, latitude, longitude with
  | Some id, Some la, Some lo =>
      if truthyStr (Some id) then
        updatedBus <- updateBusLocation id la lo now ;;
        buses <- findAll ;;
        broadcast (BusUpdate buses)
      else send ws (ErrorFrame invalidData)
  | _, _, _ => send ws (ErrorFrame invalidData)
  end.

Definition onBusStopRequest (ws : nat) (busStopId : option ObjectId)
           (status : option (list string)) : M unit :=
  match busStopId with
  | Some id =>
      if truthyStr (Some id) then
        d <- getDb ;;
        let results := paginate 1 10 (scheduledBuses d) in
        schedules <- lift (filterR (stopMatches d id) results) ;;
        let schedules :=
          match status with
          | Some (s :: more) =>
              filter (fun schedule =>
                        includes (s :: more) (Model.status schedule))
                     schedules
          | _ => schedules
          end in
        (if (length schedules =? 0)%nat
         then consoleLog
                "No scheduled buses found for the provided bus stop or status." ""
         else ret tt) ;;;
        send ws (BusStopResponse schedules)
      else send ws (ErrorFrame stopIdRequired)
  | None => send ws (ErrorFrame stopIdRequired)
  end.

(** [ws.on("message", async (message) => { try { ... } catch (error)
    { ... } })] for the socket of client [ws]. *)
Definition onMessage (ws : nat) (message : Message) (now : Date) : M unit :=
  tryCatch
    (match message with
     | Unparseable => throw SyntaxError
     | LocationUpdate id la lo => onLocationUpdate ws id la lo now
     | BusStopRequest id status => onBusStopRequest ws id status
     | OtherType => ret tt
     | ParsedNull =>
         throw (TypeError "Cannot read properties of null (reading 'type')")
     end)
    (fun error =>
       consoleError "Error processing WebSocket message:" (Eff.message error) ;;;
       send ws (ErrorFrame requestFailed)).

End Handler.

End Server.


(* ------------------------------------------------------------------ *)
(** ** Data for the examples *)

Module Fixture.

Import JsNumber Model Eff Mongoose TimeUtils.
Local Open Scope string_scope.

(** A distance to run the examples with: 111 km per degree along each
    axis.  Like the great-circle distance it is zero on a coincident pair
    and far above every threshold for points a degree apart; the examples
    rely on nothing else. *)
Definition gridDistance (a b c d : num) : num :=
  match a, b, c, d with
  | Num lat1, Num lng1, Num lat2, Num lng2 =>
      Num (111 * (Qabs (lat1 - lat2) + Qabs (lng1 - lng2)))
  | _, _, _, _ => NaN
  end.

#[export] Instance gridGeo : Geo := {| haversineDistance := gridDistance |}.

Definition stopAt (id : ObjectId) (la lo : Q) : BusStop :=
  {| stop_id := id;
     coordinates := Some {| lat := Some la; lng := Some lo |} |}.

(** Origin, two stops that share one location, destination. *)
Definition stops4 : list BusStop :=
  [ stopAt "origin" 11 77; stopAt "S1" (23 # 2) 77; stopAt "S2" (23 # 2) 77;
    stopAt "dest" 12 77 ].

Definition routeR1 : Route :=
  {| route_id := "R1";
     origin := Some "origin";
     destination := Some "dest";
     stops := Some [ {| stopId := "origin" |}; {| stopId := "S1" |};
                     {| stopId := "S2" |}; {| stopId := "dest" |} ];
     totalDistance := Some 111 |}.

(** A route that lacks [totalDistance]. *)
Definition routeR2 : Route :=
  {| route_id := "R2";
     origin := Some "origin";
     destination := Some "dest";
     stops := Some [ {| stopId := "origin" |}; {| stopId := "dest" |} ];
     totalDistance := None |}.

(** A route that serves the origin and the destination only. *)
Definition routeR3 : Route :=
  {| route_id := "R3";
     origin := Some "origin";
     destination := Some "dest";
     stops := Some [ {| stopId := "origin" |}; {| stopId := "dest" |} ];
     totalDistance := Some 111 |}.

Definition newTrip (id route : ObjectId) (created : Date) : ScheduledBus :=
  {| bus_id := id;
     Model.route := route;
     distanceTraveled := None;
     distanceRemaining := None;
     speed := None;
     journeyCompletion := None;
     leftAt := [];
     status := "Scheduled";
     location := {| latitude := None; longitude := None; lastUpdated := None |};
     createdAt := created |}.

(** A trip with a previous fix at the origin and a recorded speed. *)
Definition movingTrip : ScheduledBus :=
  {| bus_id := "T3";
     Model.route := "R1";
     distanceTraveled := Some 0;
     distanceRemaining := Some 111;
     speed := Some 40;
     journeyCompletion := Some 0;
     leftAt := [];
     status := "On Route";
     location := {| latitude := Some 11; longitude := Some 77;
                    lastUpdated := Some 5000%Z |};
     createdAt := 3%Z |}.

Definition db0 : DB :=
  {| scheduledBuses := [ newTrip "T1" "R1" 1%Z; newTrip "T2" "R2" 2%Z; movingTrip ];
     routes := [ routeR1; routeR2; routeR3 ];
     busStops := stops4 |}.

Definition world (d : DB) (accepted : bool) : World :=
  {| db := d;
     writeAccepted := accepted;
     clients := [ {| client_id := 0; readyStateOpen := true |};
                  {| client_id := 1; readyStateOpen := true |};
                  {| client_id := 2; readyStateOpen := false |} ];
     sent := [];
     console := [] |}.

Definition w0 : World := world db0 true.

(** Ten trips on the route without S1, created first, then one trip on the
    route that serves S1. *)
Definition db11 : DB :=
  {| scheduledBuses :=
       map (fun n => newTrip (String (Ascii.ascii_of_nat (65 + n)) "")
                             "R3" (Z.of_nat n))
           (seq 0 10)
       ++ [ newTrip "T11" "R1" 10%Z ];
     routes := [ routeR1; routeR2; routeR3 ];
     busStops := stops4 |}.

End Fixture.


(* ------------------------------------------------------------------ *)
(** ** Vocabulary of the statements *)

Module Statements.

Import JsNumber Model Eff Mongoose TimeUtils Common Paginate Server.
Local Open Scope string_scope.

Section WithGeo.

Context `{Geo}.

(** The fields that the revision hands to the store, for a trip, its
    route and the stop found near the fix. *)
Definition fieldsFor (bus : ScheduledBus) (r : ResolvedRoute)
           (o dst : num * num) (passed : option BusStop)
           (la lo : Q) (now : Date) : UpdateFields :=
  updateFields (fst o) (snd o) (fst dst) (snd dst) (r_totalDistance r)
               (location bus) la lo now
               (Some (Draft1.recordPassed (leftAt bus) passed now)).

(** What a run of the [try] block went through: the trip that was loaded,
    its checked route, the coordinates read, the stop found, and the store
    call that ended it. *)
Definition reachedWrite (id : ObjectId) (la lo : Q) (now : Date) (w : World)
           (res : Result (option ScheduledBus) * World) : Prop :=
  exists bus r o dst passed,
    findBus (db w) id = Some bus
    /\ checkRoute (db w) bus = Ok r
    /\ routeStopDocs (db w) r <> []
    /\ Draft1.readCoordinates (r_origin r) = Ok o
    /\ Draft1.readCoordinates (r_destination r) = Ok dst
    /\ findPassedStop Draft1.THRESHOLD_DISTANCE la lo
                      (routeStopDocs (db w) r) = Ok passed
    /\ findByIdAndUpdate id (fieldsFor bus r o dst passed la lo now) [] w = res.

(** [haversineDistance(latitude, longitude, stop.coordinates.lat,
    stop.coordinates.lng) < threshold], for a stop that has coordinates. *)
Definition withinThreshold (threshold la lo : Q) (s : BusStop) : bool :=
  match coordinates s with
  | Some c =>
      ltb (haversineDistance (Num la) (Num lo)
                             (ofOption (lat c)) (ofOption (lng c)))
          (Num threshold)
  | None => false
  end.


End WithGeo.

(** Whether the log has an entry for the stop. *)
Definition recorded (l : list LeftAt) (id : ObjectId) : bool :=
  existsb (fun entry => String.eqb (stop entry) id) l.

(** The number of entries of the log for the stop. *)
Definition entriesFor (l : list LeftAt) (id : ObjectId) : nat :=
  length (filter (fun entry => String.eqb (stop entry) id) l).

(** The [leftAt] of a stored trip, [None] when no trip has that [_id]. *)
Definition storedLeftAt (w : World) (id : ObjectId) : option (list LeftAt) :=
  option_map leftAt (findBus (db w) id).


(** Two outcomes that a caller can tell apart. *)
Definition distinguishes {A} (notFoundOutcome incompleteOutcome : A) : Prop :=
  notFoundOutcome <> incompleteOutcome.

(** The data behind [Route data is invalid or missing required details]:
    no route, an origin or destination that resolves to no stop, no stop
    sequence, or a [totalDistance] that is missing or zero. *)
Definition routeIncomplete (d : DB) (b : ScheduledBus) : Prop :=
  match findRoute d (Model.route b) with
  | None => True
  | Some r =>
      populateStop d (origin r) = None
      \/ populateStop d (destination r) = None
      \/ stops r = None
      \/ truthy (totalDistance r) = false
  end.

(** The route of the trip lists the stop. *)
Definition serves (d : DB) (busStopId : ObjectId) (b : ScheduledBus) : bool :=
  match findRoute d (Model.route b) with
  | Some r =>
      match stops r with
      | Some ss => existsb (fun st => String.eqb (stopId st) busStopId) ss
      | None => false
      end
  | None => false
  end.

(** The trip's route and every stop reference of the route resolve. *)
Definition resolved (d : DB) (b : ScheduledBus) : Prop :=
  exists r ss,
    findRoute d (Model.route b) = Some r
    /\ stops r = Some ss
    /\ forall st, In st ss -> findStop d (stopId st) <> None.

(** [status && status.length > 0] selects by status; otherwise every
    status passes. *)
Definition statusAllowed (status : option (list string)) (b : ScheduledBus)
  : bool :=
  match status with
  | Some (s :: more) => includes (s :: more) (Model.status b)
  | _ => true
  end.

(** The page that the handler asks for: the first ten trips by creation
    time, of all trips. *)
Definition firstPage (d : DB) : list ScheduledBus :=
  paginate 1 10 (scheduledBuses d).

(** What the handler answers: the trips of that page that serve the stop
    and pass the status filter. *)
Definition answer (d : DB) (busStopId : ObjectId)
           (status : option (list string)) : list ScheduledBus :=
  filter (statusAllowed status) (filter (serves d busStopId) (firstPage d)).

(** The query as the specification words it: the trips that serve the stop
    and pass the status filter, ordered by creation time, then paginated. *)
Definition specQuery (d : DB) (busStopId : ObjectId)
           (status : option (list string)) : list ScheduledBus :=
  paginate 1 10
           (filter (statusAllowed status)
                   (filter (serves d busStopId) (scheduledBuses d))).

Definition byCreation (a b : ScheduledBus) : Prop :=
  (createdAt a <= createdAt b)%Z.

End Statements.


(* ------------------------------------------------------------------ *)
(** ** More data for the examples *)

Module Fixture2.

Import JsNumber Model Eff Mongoose TimeUtils Fixture.
Local Open Scope string_scope.

(** A stop on the equator. *)
Definition equatorStop : BusStop := stopAt "equator" 0 77.

Definition routeTo (id : ObjectId) (o dst : ObjectId) (ss : list ObjectId)
           (total : Q) : Route :=
  {| route_id := id;
     origin := Some o;
     destination := Some dst;
     stops := Some (map (fun x => {| stopId := x |}) ss);
     totalDistance := Some total |}.

(** The store of [Fixture.db0] with four more trips: on a route with a
    negative [totalDistance], on a route whose stop references name no
    document, on a route that starts on the equator and on a route that
    ends there. *)
Definition db1 : DB :=
  {| scheduledBuses :=
       scheduledBuses db0
       ++ [ newTrip "TN" "RN" 4%Z;
            newTrip "TE" "RE" 6%Z; newTrip "TQ" "RQ" 7%Z;
            newTrip "TZ" "RZ" 8%Z ];
     routes :=
       routes db0
       ++ [ routeTo "RN" "origin" "dest" ["origin"; "dest"] (-111);
            routeTo "RE" "origin" "dest" ["gone"] 111;
            routeTo "RQ" "equator" "dest" ["equator"; "dest"] 111;
            routeTo "RZ" "origin" "equator" ["origin"; "equator"] 111 ];
     busStops := equatorStop :: busStops db0 |}.

Definition w1 : World := world db1 true.

End Fixture2.

(* ------------------------------------------------------------------ *)
(** ** More vocabulary *)

Module Statements2.

Import JsNumber Model Eff Mongoose TimeUtils Common Paginate Server.
Local Open Scope string_scope.

(** The distance function never gives a negative number. *)
Definition distanceNonNegative `{Geo} : Prop :=
  forall a b c d q, haversineDistance a b c d = Num q -> (0 <= q)%Q.

(** Two trip documents that agree on every path but [leftAt]. *)
Definition sameButLeftAt (a b : ScheduledBus) : Prop :=
  bus_id a = bus_id b
  /\ Model.route a = Model.route b
  /\ distanceTraveled a = distanceTraveled b
  /\ distanceRemaining a = distanceRemaining b
  /\ speed a = speed b
  /\ journeyCompletion a = journeyCompletion b
  /\ status a = status b
  /\ location a = location b
  /\ createdAt a = createdAt b.

(** The client is a member of [wss.clients] whose socket is open. *)
Definition isOpenClient (w : World) (c : nat) : Prop :=
  exists cl, In cl (clients w) /\ client_id cl = c /\ readyStateOpen cl = true.

End Statements2.


(* ------------------------------------------------------------------ *)
(** * Properties *)

(** ** Clamping and rounding *)

Module NumberFacts.

Import JsNumber.
Local Open Scope Q_scope.

Lemma hundredths_nonneg (x : Q) : 0 <= x -> (0 <= hundredths x)%Z.
Proof.
  intros Hx. unfold hundredths.
  change 0%Z with (Qfloor 0).
  apply Qfloor_resp_le. nra.
Qed.

Lemma hundredths_upper (x : Q) (n : Z) :
  x <= inject_Z n -> (hundredths x <= 100 * n)%Z.
Proof.
  intros Hx. unfold hundredths.
  set (y := x * 100 + (1 # 2)).
  assert (Hf : inject_Z (Qfloor y) <= y) by apply Qfloor_le.
  assert (Hy : y < inject_Z (100 * n + 1)).
  { unfold y. rewrite inject_Z_plus, inject_Z_mult.
    change (inject_Z 100) with 100. change (inject_Z 1) with 1. nra. }
  assert (Hlt : inject_Z (Qfloor y) < inject_Z (100 * n + 1)).
  { eapply Qle_lt_trans; eassumption. }
  rewrite <- Zlt_Qlt in Hlt. lia.
Qed.

Lemma toFixed2Q_nonneg (x : Q) : 0 <= x -> 0 <= toFixed2Q x.
Proof.
  intros Hx. unfold toFixed2Q.
  destruct (Qle_bool (10 ^ 21) (Qabs x)); [exact Hx|].
  destruct (Qle_bool 0 x) eqn:E.
  - pose proof (hundredths_nonneg Hx) as Hn.
    rewrite Zle_Qle in Hn. change (inject_Z 0) with 0 in Hn.
    apply Qle_shift_div_l; [reflexivity | nra].
  - rewrite <- Qle_bool_iff in Hx. congruence.
Qed.

Lemma toFixed2Q_le_100 (x : Q) : 0 <= x -> x <= 100 -> toFixed2Q x <= 100.
Proof.
  intros H0 Hx. unfold toFixed2Q.
  destruct (Qle_bool (10 ^ 21) (Qabs x)); [exact Hx|].
  destruct (Qle_bool 0 x) eqn:E.
  - pose proof (@hundredths_upper x 100 Hx) as Hn.
    rewrite Zle_Qle in Hn. change (inject_Z (100 * 100)) with 10000 in Hn.
    apply Qle_shift_div_r; [reflexivity | nra].
  - rewrite <- Qle_bool_iff in H0. congruence.
Qed.

Lemma max_zero_atLeast (a : num) : isNaN a = false -> atLeast 0 (max a (Num 0)).
Proof.
  destruct a as [|x]; simpl; [discriminate|]. intros _.
  destruct (Qle_bool x 0) eqn:E.
  - apply Qle_refl.
  - destruct (Qlt_le_dec x 0) as [Hlt|Hle]; [|exact Hle].
    apply Qlt_le_weak in Hlt. rewrite <- Qle_bool_iff in Hlt. congruence.
Qed.

(** [Math.max(0, Math.min(a, 100))] for a number [a]. *)
Lemma clamp_between (a : num) :
  isNaN a = false -> between 0 100 (max (Num 0) (min a (Num 100))).
Proof.
  destruct a as [|x]; simpl; [discriminate|]. intros _.
  destruct (Qle_bool x 100) eqn:E1.
  - destruct (Qle_bool 0 x) eqn:E2.
    + rewrite Qle_bool_iff in E1, E2. split; assumption.
    + split; [apply Qle_refl | discriminate].
  - simpl. split; [discriminate | apply Qle_refl].
Qed.

Lemma clamp_NaN (a b : num) : isNaN a = true -> isNaN (max b (min a (Num 100))) = true.
Proof. destruct a; [|discriminate]. destruct b; reflexivity. Qed.

Lemma toFixed2_atLeast (a : num) : atLeast 0 a -> atLeast 0 (toFixed2 a).
Proof. destruct a as [|x]; simpl; [tauto|]. apply toFixed2Q_nonneg. Qed.

Lemma toFixed2_between (a : num) : between 0 100 a -> between 0 100 (toFixed2 a).
Proof.
  destruct a as [|x]; simpl; [tauto|]. intros [H0 H1].
  split; [apply toFixed2Q_nonneg | apply toFixed2Q_le_100]; assumption.
Qed.

Lemma max_NaN_or_atLeast (a : num) :
  isNaN (max a (Num 0)) = true \/ atLeast 0 (max a (Num 0)).
Proof.
  destruct (isNaN a) eqn:E.
  - left. destruct a; [reflexivity | discriminate].
  - right. apply max_zero_atLeast, E.
Qed.

Lemma clamp_NaN_or_between (a : num) :
  isNaN (max (Num 0) (min a (Num 100))) = true
  \/ between 0 100 (max (Num 0) (min a (Num 100))).
Proof.
  destruct (isNaN a) eqn:E.
  - left. apply clamp_NaN, E.
  - right. apply clamp_between, E.
Qed.

Lemma toFixed2_isNaN (a : num) : isNaN (toFixed2 a) = isNaN a.
Proof. destruct a; reflexivity. Qed.

End NumberFacts.

(** ** The store's update call *)

Module StoreFacts.

Import JsNumber Model Eff Mongoose.
Local Open Scope string_scope.

Ltac unfold_eff :=
  unfold findById, findAll, consoleLog in *;
  unfold bind, ret, lift, throw, tryCatch, getDb, setDb, getWriteAccepted,
    consoleError, send, broadcast in *.

Lemma find_bus_id (l : list ScheduledBus) (id : ObjectId) (b : ScheduledBus) :
  find (fun b => String.eqb (bus_id b) id) l = Some b -> bus_id b = id.
Proof.
  intros Hf. apply find_some in Hf. destruct Hf as [_ Hf].
  apply String.eqb_eq, Hf.
Qed.

Lemma find_stop_id (l : list BusStop) (id : ObjectId) (s : BusStop) :
  find (fun s => String.eqb (stop_id s) id) l = Some s -> stop_id s = id.
Proof.
  intros Hf. apply find_some in Hf. destruct Hf as [_ Hf].
  apply String.eqb_eq, Hf.
Qed.

Lemma find_replaceById (l : list ScheduledBus) (id : ObjectId)
      (doc doc' : ScheduledBus) :
  find (fun b => String.eqb (bus_id b) id) l = Some doc ->
  bus_id doc' = id ->
  find (fun b => String.eqb (bus_id b) id) (replaceById id doc' l) = Some doc'.
Proof.
  intros Hf Hid. induction l as [|b rest IH]; simpl in *; [discriminate|].
  destruct (String.eqb (bus_id b) id) eqn:E; simpl.
  - rewrite Hid, String.eqb_refl. reflexivity.
  - rewrite E. apply IH, Hf.
Qed.

Lemma findByIdAndUpdate_throw (id : ObjectId) (f : UpdateFields)
      (push : list LeftAt) (w w' : World) (e : Error) :
  findByIdAndUpdate id f push w = (Throw e, w') -> w' = w.
Proof.
  unfold findByIdAndUpdate. unfold_eff.
  destruct (castNumber _ (set_distanceTraveled f)); [|congruence].
  destruct (castNumber _ (set_distanceRemaining f)); [|congruence].
  destruct (castNumber _ (set_journeyCompletion f)); [|congruence].
  destruct (castOptional _ (set_speed f)); [|congruence].
  destruct (writeAccepted w); simpl; [|congruence].
  destruct (findBus (db w) id); congruence.
Qed.

Lemma findByIdAndUpdate_rejected (id : ObjectId) (f : UpdateFields)
      (push : list LeftAt) (w : World) :
  writeAccepted w = false ->
  exists e, findByIdAndUpdate id f push w = (Throw e, w).
Proof.
  intros Hw. unfold findByIdAndUpdate. unfold_eff.
  destruct (castNumber _ (set_distanceTraveled f)); [|eauto].
  destruct (castNumber _ (set_distanceRemaining f)); [|eauto].
  destruct (castNumber _ (set_journeyCompletion f)); [|eauto].
  destruct (castOptional _ (set_speed f)); [|eauto].
  rewrite Hw. simpl. eauto.
Qed.

Lemma findByIdAndUpdate_ok (id : ObjectId) (f : UpdateFields)
      (push : list LeftAt) (w w' : World) (doc' : ScheduledBus) :
  findByIdAndUpdate id f push w = (Ok (Some doc'), w') ->
  exists doc dt dr jc sp,
    findBus (db w) id = Some doc
    /\ set_distanceTraveled f = Num dt
    /\ set_distanceRemaining f = Num dr
    /\ set_journeyCompletion f = Num jc
    /\ castOptional "speed" (set_speed f) = Ok sp
    /\ doc' = applyUpdate f dt dr jc sp push doc
    /\ w' = withDb w (withBuses (db w)
                                (replaceById id doc' (scheduledBuses (db w)))).
Proof.
  unfold findByIdAndUpdate. unfold_eff.
  destruct (set_distanceTraveled f) as [|dt]; simpl; [congruence|].
  destruct (set_distanceRemaining f) as [|dr]; simpl; [congruence|].
  destruct (set_journeyCompletion f) as [|jc]; simpl; [congruence|].
  destruct (castOptional "speed" (set_speed f)) as [sp|]; [|congruence].
  destruct (writeAccepted w); simpl; [|congruence].
  destruct (findBus (db w) id) as [doc|] eqn:Hb; [|congruence].
  intros Heq. inversion Heq; subst.
  exists doc, dt, dr, jc, sp. repeat split; reflexivity.
Qed.

End StoreFacts.

(** ** [updateBusLocation] of [src/index.js] never reaches the store *)

Module IndexFacts.

Import JsNumber Model Eff Mongoose TimeUtils Common Server StoreFacts.
Local Open Scope string_scope.

Lemma checkRoute_throw (d : DB) (b : ScheduledBus) (e : Error) :
  checkRoute d b = Throw e -> e = Err routeInvalid.
Proof.
  unfold checkRoute.
  destruct (findRoute d (Model.route b)) as [r|]; [|congruence].
  destruct (populateStop d (origin r)); [|congruence].
  destruct (populateStop d (destination r)); [|congruence].
  destruct (stops r); [|congruence].
  destruct (totalDistance r); [|congruence].
  destruct (truthy (Some q)); congruence.
Qed.

Lemma requireCoordinates_throw (s : BusStop) (msg : string) (e : Error) :
  Index.requireCoordinates s msg = Throw e -> e = Err msg.
Proof.
  unfold Index.requireCoordinates.
  destruct (coordinates s) as [c|]; [|congruence].
  destruct (lat c); [|congruence].
  destruct (lng c); [|congruence].
  destruct (truthy (Some q) && truthy (Some q0)); congruence.
Qed.

Section WithGeo.

Context `{Geo}.

(** Whatever the store holds, the [try] block ends in a throw with the
    world as it found it: either one of the guards threw, or the read of
    [busData] did. *)
Lemma tryBlock_throws (id : ObjectId) (la lo : Q) (now : Date) (w : World) :
  exists e,
    Index.tryBlock id la lo now w = (Throw e, w)
    /\ (e = ReferenceError "busData" \/ exists m, e = Err m).
Proof.
  assert (thrown : forall e,
             e = ReferenceError "busData" \/ (exists m, e = Err m) ->
             exists e0, (@Throw (option ScheduledBus) e, w) = (Throw e0, w)
                        /\ (e0 = ReferenceError "busData"
                            \/ exists m, e0 = Err m)).
  { intros e He. exists e. split; [reflexivity | exact He]. }
  unfold Index.tryBlock, Index.freeIdentifier. unfold_eff.
  destruct (findBus (db w) id) as [b|]; [|apply thrown; eauto].
  destruct (checkRoute (db w) b) as [r|e] eqn:Hr.
  2:{ apply checkRoute_throw in Hr. subst. apply thrown; eauto. }
  destruct (length (routeStopDocs (db w) r) =? 0)%nat; [apply thrown; eauto|].
  destruct (Index.requireCoordinates (r_origin r) _) as [o|e] eqn:Ho.
  2:{ apply requireCoordinates_throw in Ho. subst. apply thrown; eauto. }
  destruct (Index.requireCoordinates (r_destination r) _) as [dst|e] eqn:Hd.
  2:{ apply requireCoordinates_throw in Hd. subst. apply thrown; eauto. }
  apply thrown; eauto.
Qed.

(** A trip that passes every guard dies on [busData]. *)
Lemma tryBlock_valid_trip (id : ObjectId) (la lo : Q) (now : Date) (w : World)
      (b : ScheduledBus) (r : ResolvedRoute) (o dst : Q * Q) :
  findBus (db w) id = Some b ->
  checkRoute (db w) b = Ok r ->
  routeStopDocs (db w) r <> [] ->
  Index.requireCoordinates (r_origin r)
    "Origin coordinates are missing or invalid" = Ok o ->
  Index.requireCoordinates (r_destination r)
    "Destination coordinates are missing or invalid" = Ok dst ->
  Index.tryBlock id la lo now w = (Throw (ReferenceError "busData"), w).
Proof.
  intros Hb Hr Hs Ho Hd.
  unfold Index.tryBlock, Index.freeIdentifier. unfold_eff.
  rewrite Hb, Hr.
  destruct (routeStopDocs (db w) r) as [|s ss]; [congruence|]. simpl.
  rewrite Ho, Hd. reflexivity.
Qed.

Lemma updateBusLocation_throws (id : ObjectId) (la lo : Q) (now : Date)
      (w : World) :
  exists detail,
    Index.updateBusLocation id la lo now w
    = (Throw (Err updateFailed),
       addLine w "Error updating bus location:" detail).
Proof.
  destruct (tryBlock_throws id la lo now w) as [e [He _]].
  unfold Index.updateBusLocation, tryCatch. rewrite He.
  exists (message e). reflexivity.
Qed.

End WithGeo.

End IndexFacts.

(** ** The revision that keeps [leftAt] on the trip *)

Module Draft1Facts.

Import JsNumber Model Eff Mongoose TimeUtils Common Server StoreFacts.
Import Statements.
Local Open Scope string_scope.

Section WithGeo.

Context `{Geo}.

(** A run either threw before the store call, leaving the world alone, or
    it is the store call. *)
Lemma tryBlock_cases (id : ObjectId) (la lo : Q) (now : Date) (w : World) :
  (exists e, Draft1.tryBlock id la lo now w = (Throw e, w))
  \/ reachedWrite id la lo now w (Draft1.tryBlock id la lo now w).
Proof.
  unfold reachedWrite, fieldsFor, Draft1.tryBlock. unfold_eff.
  destruct (findBus (db w) id) as [b|] eqn:Hb;
    [|left; eexists; reflexivity].
  destruct (checkRoute (db w) b) as [r|e] eqn:Hr;
    [|left; eexists; reflexivity].
  destruct (routeStopDocs (db w) r) as [|s ss] eqn:Hs;
    [left; eexists; reflexivity|].
  cbn [length Nat.eqb].
  destruct (Draft1.readCoordinates (r_origin r)) as [o|e] eqn:Ho;
    [|left; eexists; reflexivity].
  destruct (Draft1.readCoordinates (r_destination r)) as [dst|e] eqn:Hd;
    [|left; eexists; reflexivity].
  destruct (findPassedStop Draft1.THRESHOLD_DISTANCE la lo (s :: ss))
    as [passed|e] eqn:Hp; [|left; eexists; reflexivity].
  right. exists b, r, o, dst, passed.
  repeat split; try assumption; try reflexivity;
    rewrite Hs; [discriminate | assumption].
Qed.

Lemma tryBlock_throw (id : ObjectId) (la lo : Q) (now : Date) (w w' : World)
      (e : Error) :
  Draft1.tryBlock id la lo now w = (Throw e, w') -> w' = w.
Proof.
  intros Ht. destruct (tryBlock_cases id la lo now w) as [[e' He]|Hw].
  - congruence.
  - destruct Hw as (b & r & o & dst & p & _ & _ & _ & _ & _ & _ & Hu).
    rewrite Ht in Hu. apply findByIdAndUpdate_throw in Hu. exact Hu.
Qed.

Lemma tryBlock_ok (id : ObjectId) (la lo : Q) (now : Date) (w w' : World)
      (res : option ScheduledBus) :
  Draft1.tryBlock id la lo now w = (Ok res, w') ->
  reachedWrite id la lo now w (Ok res, w').
Proof.
  intros Ht. destruct (tryBlock_cases id la lo now w) as [[e' He]|Hw].
  - congruence.
  - rewrite Ht in Hw. exact Hw.
Qed.

Lemma updateBusLocation_ok (id : ObjectId) (la lo : Q) (now : Date)
      (w w' : World) (res : option ScheduledBus) :
  Draft1.updateBusLocation id la lo now w = (Ok res, w') ->
  Draft1.tryBlock id la lo now w = (Ok res, w').
Proof.
  unfold Draft1.updateBusLocation, tryCatch.
  destruct (Draft1.tryBlock id la lo now w) as [[r|e] w1]; [tauto|].
  unfold rethrow. unfold_eff. congruence.
Qed.

Lemma updateBusLocation_throw (id : ObjectId) (la lo : Q) (now : Date)
      (w w' : World) (e : Error) :
  Draft1.updateBusLocation id la lo now w = (Throw e, w') ->
  exists e0,
    Draft1.tryBlock id la lo now w = (Throw e0, w)
    /\ e = Err updateFailed
    /\ w' = addLine w "Error updating bus location:" (message e0).
Proof.
  unfold Draft1.updateBusLocation, tryCatch.
  destruct (Draft1.tryBlock id la lo now w) as [[r|e0] w1] eqn:Ht; [congruence|].
  apply tryBlock_throw in Ht as Hw. subst w1.
  unfold rethrow. unfold_eff. intros Heq. inversion Heq; subst.
  exists e0. repeat split; reflexivity.
Qed.

(** The document that an accepted update returns is the one the store
    then holds under that [_id]. *)
Lemma stored_after_update (id : ObjectId) (la lo : Q) (now : Date)
      (w w' : World) (bus' : ScheduledBus) :
  Draft1.updateBusLocation id la lo now w = (Ok (Some bus'), w') ->
  findBus (db w') id = Some bus'.
Proof.
  intros Hu. apply updateBusLocation_ok, tryBlock_ok in Hu.
  destruct Hu as (b & r & o & dst & p & Hb & _ & _ & _ & _ & _ & Hu).
  apply findByIdAndUpdate_ok in Hu.
  destruct Hu as (doc & dt & dr & jc & sp & Hd & _ & _ & _ & _ & Hdoc & Hw).
  assert (Hid : bus_id bus' = id).
  { rewrite Hdoc. cbn [applyUpdate bus_id]. eapply find_bus_id, Hd. }
  rewrite Hw. cbn [withDb db]. unfold findBus, withBuses.
  cbn [scheduledBuses]. eapply find_replaceById; eassumption.
Qed.

End WithGeo.

End Draft1Facts.

(** ** Progress figures *)

Module Progress.

Import JsNumber Model Eff Mongoose TimeUtils Common Server.
Import NumberFacts StoreFacts Statements Draft1Facts.
Local Open Scope string_scope.

Section WithGeo.

Context `{Geo}.

Lemma updateFields_bounds (oLat oLng dLat dLng : num) (total : Q)
      (loc : Location) (la lo : Q) (now : Date)
      (key : option (list LeftAt)) :
  let f := updateFields oLat oLng dLat dLng total loc la lo now key in
  (isNaN (set_journeyCompletion f) = true
   \/ between 0 100 (set_journeyCompletion f))
  /\ (isNaN (set_distanceRemaining f) = true
      \/ atLeast 0 (set_distanceRemaining f)).
Proof.
  unfold updateFields. cbn [set_journeyCompletion set_distanceRemaining].
  split.
  - destruct (clamp_NaN_or_between
                (mul (div (haversineDistance oLat oLng (Num la) (Num lo))
                          (Num total)) (Num 100))) as [Hn|Hb].
    + left. rewrite toFixed2_isNaN. exact Hn.
    + right. apply toFixed2_between, Hb.
  - destruct (max_NaN_or_atLeast
                (haversineDistance (Num la) (Num lo) dLat dLng)) as [Hn|Hb].
    + left. rewrite toFixed2_isNaN. exact Hn.
    + right. apply toFixed2_atLeast, Hb.
Qed.

(** C1.  The completion percentage and the remaining distance that an
    update computes are clamped: each is a number in range or is not a
    number at all, and the store refuses the latter.  Hence whenever an
    update is accepted, the trip that the store then holds has
    [journeyCompletion] in [0, 100] and [distanceRemaining >= 0], whatever
    the latitude and longitude were. *)
Theorem accepted_update_in_range :
  (forall oLat oLng dLat dLng total loc la lo now key,
      let f := updateFields oLat oLng dLat dLng total loc la lo now key in
      (isNaN (set_journeyCompletion f) = true
       \/ between 0 100 (set_journeyCompletion f))
      /\ (isNaN (set_distanceRemaining f) = true
          \/ atLeast 0 (set_distanceRemaining f)))
  /\ (forall id la lo now w w' bus',
         Draft1.updateBusLocation id la lo now w = (Ok (Some bus'), w') ->
         findBus (db w') id = Some bus'
         /\ exists c r,
             journeyCompletion bus' = Some c
             /\ distanceRemaining bus' = Some r
             /\ (0 <= c /\ c <= 100)%Q
             /\ (0 <= r)%Q).
Proof.
  split; [intros; apply updateFields_bounds|].
  intros id la lo now w w' bus' Hu.
  split; [eapply stored_after_update, Hu|].
  apply updateBusLocation_ok, tryBlock_ok in Hu.
  destruct Hu as (b & r & o & dst & p & Hb & _ & _ & _ & _ & _ & Hu).
  apply findByIdAndUpdate_ok in Hu.
  destruct Hu as (doc & dt & dr & jc & sp & Hd & _ & Hdr & Hjc & _ & Hdoc & Hw).
  exists jc, dr. subst bus'.
  cbn [applyUpdate journeyCompletion distanceRemaining].
  pose proof (updateFields_bounds (fst o) (snd o) (fst dst) (snd dst)
                (r_totalDistance r) (location b) la lo now
                (Some (Draft1.recordPassed (leftAt b) p now))) as [Hc Hr].
  fold (fieldsFor b r o dst p la lo now) in Hc, Hr.
  rewrite Hjc in Hc. rewrite Hdr in Hr. cbn in Hc, Hr.
  destruct Hc as [Hc|Hc]; [discriminate|].
  destruct Hr as [Hr|Hr]; [discriminate|].
  repeat split; try reflexivity; tauto.
Qed.

End WithGeo.

Lemma accepted_update_in_range_witness :
  exists bus' w',
    Draft1.updateBusLocation (H := Fixture.gridGeo) "T1" (23 # 2) 77 1000%Z Fixture.w0
    = (Ok (Some bus'), w')
    /\ findBus (db w') "T1" = Some bus'
    /\ exists c r,
        journeyCompletion bus' = Some c
        /\ distanceRemaining bus' = Some r
        /\ (0 <= c /\ c <= 100)%Q
        /\ (0 <= r)%Q.
Proof.
  do 2 eexists. split; [lazy; reflexivity|].
  apply (proj2 (@accepted_update_in_range Fixture.gridGeo) "T1" (23 # 2) 77 1000%Z Fixture.w0).
  lazy; reflexivity.
Defined.

End Progress.

(** ** The handler on a position report *)

Module HandlerFacts.

Import JsNumber Model Eff Mongoose TimeUtils Common Server.
Import StoreFacts Statements IndexFacts Draft1Facts.
Local Open Scope string_scope.

Section AnyRevision.

Variable updateBusLocation :
  ObjectId -> Q -> Q -> Date -> M (option ScheduledBus).

(** A report that fails the guard is answered on the spot. *)
Lemma onMessage_guard (ws : nat) (id : option ObjectId) (la lo : option Q)
      (now : Date) (w : World) :
  hasFields id la lo = false ->
  onMessage updateBusLocation ws (LocationUpdate id la lo) now w
  = (Ok tt, addSent w [(ws, ErrorFrame invalidData)]).
Proof.
  unfold hasFields, onMessage, onLocationUpdate. unfold_eff.
  destruct id as [id|], la as [la|], lo as [lo|]; try reflexivity.
  intros Hf. rewrite Hf. reflexivity.
Qed.

(** A report that passes the guard and whose update throws is answered
    with the catch-all frame. *)
Lemma onMessage_update_throws (ws : nat) (id : ObjectId) (la lo : Q)
      (now : Date) (w w1 : World) (e : Error) :
  hasFields (Some id) (Some la) (Some lo) = true ->
  updateBusLocation id la lo now w = (Throw e, w1) ->
  onMessage updateBusLocation ws (LocationUpdate (Some id) (Some la) (Some lo))
            now w
  = (Ok tt,
     addSent (addLine w1 "Error processing WebSocket message:" (message e))
             [(ws, ErrorFrame requestFailed)]).
Proof.
  unfold hasFields, onMessage, onLocationUpdate. unfold_eff.
  intros Hf Hu. rewrite Hf, Hu. reflexivity.
Qed.

(** A report that passes the guard and whose update returns is followed by
    the roster to every open client. *)
Lemma onMessage_update_returns (ws : nat) (id : ObjectId) (la lo : Q)
      (now : Date) (w w1 : World) (res : option ScheduledBus) :
  hasFields (Some id) (Some la) (Some lo) = true ->
  updateBusLocation id la lo now w = (Ok res, w1) ->
  onMessage updateBusLocation ws (LocationUpdate (Some id) (Some la) (Some lo))
            now w
  = (Ok tt,
     addSent w1 (toOpenClients w1 (BusUpdate (scheduledBuses (db w1))))).
Proof.
  unfold hasFields, onMessage, onLocationUpdate. unfold_eff.
  intros Hf Hu. rewrite Hf, Hu. reflexivity.
Qed.

End AnyRevision.

Section WithGeo.

Context `{Geo}.

(** Whatever the report, [src/index.js] answers with one error frame to
    the sender and leaves the store as it was. *)
Lemma index_report_outcome (ws : nat) (id : option ObjectId)
      (la lo : option Q) (now : Date) (w : World) :
  exists w',
    onMessage Index.updateBusLocation ws (LocationUpdate id la lo) now w
    = (Ok tt, w')
    /\ db w' = db w
    /\ sent w' = (sent w
                  ++ [(ws, ErrorFrame (if hasFields id la lo
                                       then requestFailed
                                       else invalidData))])%list.
Proof.
  destruct (hasFields id la lo) eqn:Hf.
  - destruct id as [id|], la as [la|], lo as [lo|]; try discriminate.
    destruct (updateBusLocation_throws id la lo now w) as [detail Hu].
    rewrite (onMessage_update_throws _ ws id la lo now w Hf Hu).
    eexists. split; [reflexivity|]. split; reflexivity.
  - rewrite (onMessage_guard _ ws id la lo now w Hf).
    eexists. split; [reflexivity|]. split; reflexivity.
Qed.

(** C2.  [updateBusLocation] of [src/index.js] throws on every input
    before the store is written: its [try] block ends in a throw that
    leaves the world untouched, on [busData] (which, like [passedStops], no
    scope binds) as soon as the trip passes every guard; the function
    rethrows [Error updating bus location].  A position report therefore
    never changes the store and never leads to a [busUpdate] frame: the
    only frame is an error to the sender, the catch-all one whenever the
    update was called. *)
Theorem index_update_always_throws :
  Index.bound "busData" = false
  /\ Index.bound "passedStops" = false
  /\ (forall id la lo now w,
         exists e,
           Index.tryBlock id la lo now w = (Throw e, w)
           /\ (e = ReferenceError "busData" \/ exists m, e = Err m))
  /\ (forall id la lo now w b r o dst,
         findBus (db w) id = Some b ->
         checkRoute (db w) b = Ok r ->
         routeStopDocs (db w) r <> [] ->
         Index.requireCoordinates (r_origin r)
           "Origin coordinates are missing or invalid" = Ok o ->
         Index.requireCoordinates (r_destination r)
           "Destination coordinates are missing or invalid" = Ok dst ->
         Index.updateBusLocation id la lo now w
         = (Throw (Err updateFailed),
            addLine w "Error updating bus location:"
                    "busData is not defined"))
  /\ (forall id la lo now w,
         exists detail,
           Index.updateBusLocation id la lo now w
           = (Throw (Err updateFailed),
              addLine w "Error updating bus location:" detail))
  /\ (forall ws id la lo now w,
         exists w',
           onMessage Index.updateBusLocation ws (LocationUpdate id la lo) now w
           = (Ok tt, w')
           /\ db w' = db w
           /\ sent w' = (sent w
                         ++ [(ws, ErrorFrame (if hasFields id la lo
                                              then requestFailed
                                              else invalidData))])%list).
Proof.
  split; [reflexivity|]. split; [reflexivity|].
  split; [apply tryBlock_throws|].
  split.
  { intros id la lo now w b r o dst Hb Hr Hs Ho Hd.
    unfold Index.updateBusLocation, tryCatch.
    rewrite (tryBlock_valid_trip id la lo now w Hb Hr Hs Ho Hd).
    reflexivity. }
  split; [apply updateBusLocation_throws|].
  intros ws id la lo now w. apply index_report_outcome.
Qed.

End WithGeo.

Lemma index_update_always_throws_witness :
  Index.updateBusLocation (H := Fixture.gridGeo) "T1" (23 # 2) 77 1000%Z
                          Fixture.w0
  = (Throw (Err updateFailed),
     addLine Fixture.w0 "Error updating bus location:"
             "busData is not defined").
Proof.
  refine (proj1 (proj2 (proj2 (proj2
            (@index_update_always_throws Fixture.gridGeo))))
            "T1" (23 # 2) 77 1000%Z Fixture.w0 _ _ _ _ _ _ _ _ _);
    try (lazy; reflexivity).
  lazy. discriminate.
Defined.

End HandlerFacts.

(** ** Speed *)

Module Speed.

Import JsNumber Model Eff Mongoose TimeUtils Common Server.
Import NumberFacts StoreFacts Statements Draft1Facts.
Local Open Scope string_scope.

Section WithGeo.

Context `{Geo}.

Lemma calculateSpeed_absent (pLat pLng : option Q) (pTime : option Date)
      (la lo : Q) (now : Date) :
  calculateSpeed pLat pLng pTime la lo now = None
  <-> (pLat = None \/ pLng = None \/ pTime = None
       \/ exists t, pTime = Some t /\ (now <= t)%Z).
Proof.
  unfold calculateSpeed.
  destruct pLat as [a|], pLng as [b|], pTime as [t|];
    try (split; [intros _; tauto | reflexivity]).
  destruct (now <=? t)%Z eqn:E.
  - apply Z.leb_le in E. split; [|reflexivity].
    intros _. right. right. right. exists t. split; [reflexivity | exact E].
  - apply Z.leb_gt in E. split; [discriminate|].
    intros [Hd|[Hd|[Hd|[t' [Hd Hle]]]]]; try discriminate.
    inversion Hd; subst. lia.
Qed.

Lemma calculateSpeed_present (a b : Q) (t : Date) (la lo : Q) (now : Date) :
  (t < now)%Z ->
  calculateSpeed (Some a) (Some b) (Some t) la lo now
  = Some (div (haversineDistance (Num a) (Num b) (Num la) (Num lo))
              (Num (inject_Z (now - t) / msPerHour))).
Proof.
  intros Hlt. unfold calculateSpeed.
  apply Z.leb_gt in Hlt. rewrite Hlt. reflexivity.
Qed.

(** C6.  The speed that an update derives from the trip's stored location
    is absent exactly when the location lacks a latitude, a longitude or a
    time, or the current time does not exceed the stored time; otherwise
    it is the distance between the stored fix and the new one divided by
    the elapsed time in hours. *)
Theorem speed_absent_or_distance_over_hours
        (oLat oLng dLat dLng : num) (total : Q) (loc : Location)
        (la lo : Q) (now : Date) (key : option (list LeftAt)) :
  let f := updateFields oLat oLng dLat dLng total loc la lo now key in
  (set_speed f = None
   <-> (latitude loc = None \/ longitude loc = None \/ lastUpdated loc = None
        \/ exists t, lastUpdated loc = Some t /\ (now <= t)%Z))
  /\ (forall a b t,
         latitude loc = Some a -> longitude loc = Some b ->
         lastUpdated loc = Some t -> (t < now)%Z ->
         set_speed f
         = Some (div (haversineDistance (Num a) (Num b) (Num la) (Num lo))
                     (Num (inject_Z (now - t) / msPerHour)))).
Proof.
  cbn [updateFields set_speed]. split.
  - apply calculateSpeed_absent.
  - intros a b t Ha Hb Ht Hlt. rewrite Ha, Hb, Ht.
    apply calculateSpeed_present, Hlt.
Qed.

(** What the store does with an update document that has no [speed] key. *)
Lemma store_keeps_speed (id : ObjectId) (f : UpdateFields)
      (push : list LeftAt) (w w' : World) (doc' : ScheduledBus) :
  set_speed f = None ->
  findByIdAndUpdate id f push w = (Ok (Some doc'), w') ->
  exists doc,
    findBus (db w) id = Some doc
    /\ speed doc' = speed doc
    /\ option_map Num (distanceTraveled doc') = Some (set_distanceTraveled f)
    /\ option_map Num (distanceRemaining doc') = Some (set_distanceRemaining f)
    /\ option_map Num (journeyCompletion doc') = Some (set_journeyCompletion f)
    /\ location doc' = {| latitude := Some (set_latitude f);
                          longitude := Some (set_longitude f);
                          lastUpdated := Some (set_lastUpdated f) |}.
Proof.
  intros Hs Hu. apply findByIdAndUpdate_ok in Hu.
  destruct Hu as (doc & dt & dr & jc & sp & Hd & Hdt & Hdr & Hjc & Hsp & Hdoc & _).
  rewrite Hs in Hsp. cbn in Hsp. inversion Hsp; subst sp.
  exists doc. subst doc'. cbn. rewrite Hdt, Hdr, Hjc. repeat split; assumption.
Qed.

(** C7.  The update document carries a [speed] key exactly when
    [calculateSpeed] gave a value.  When it gave none, an accepted update
    leaves the stored [speed] as it was and still stores the new location,
    [distanceTraveled], [distanceRemaining] and [journeyCompletion]. *)
Theorem absent_speed_leaves_stored_speed :
  (forall oLat oLng dLat dLng total loc la lo now key,
      set_speed (updateFields oLat oLng dLat dLng total loc la lo now key)
      = calculateSpeed (latitude loc) (longitude loc) (lastUpdated loc)
                       la lo now)
  /\ (forall id la lo now w w' bus bus',
         findBus (db w) id = Some bus ->
         calculateSpeed (latitude (location bus)) (longitude (location bus))
                        (lastUpdated (location bus)) la lo now = None ->
         Draft1.updateBusLocation id la lo now w = (Ok (Some bus'), w') ->
         findBus (db w') id = Some bus'
         /\ speed bus' = speed bus
         /\ location bus' = {| latitude := Some la; longitude := Some lo;
                               lastUpdated := Some now |}
         /\ exists r o dst passed,
             checkRoute (db w) bus = Ok r
             /\ Draft1.readCoordinates (r_origin r) = Ok o
             /\ Draft1.readCoordinates (r_destination r) = Ok dst
             /\ let f := fieldsFor bus r o dst passed la lo now in
                option_map Num (distanceTraveled bus')
                = Some (set_distanceTraveled f)
                /\ option_map Num (distanceRemaining bus')
                   = Some (set_distanceRemaining f)
                /\ option_map Num (journeyCompletion bus')
                   = Some (set_journeyCompletion f)).
Proof.
  split; [reflexivity|].
  intros id la lo now w w' bus bus' Hb Hs Hu.
  split.
  { eapply stored_after_update, Hu. }
  apply updateBusLocation_ok, tryBlock_ok in Hu.
  destruct Hu as (b & r & o & dst & p & Hb' & Hr & _ & Ho & Hd & _ & Hu).
  rewrite Hb in Hb'. inversion Hb'; subst b.
  apply store_keeps_speed in Hu; [|exact Hs].
  destruct Hu as (doc & Hdoc & Hsp & Hdt & Hdr & Hjc & Hloc).
  rewrite Hb in Hdoc. inversion Hdoc; subst doc.
  split; [exact Hsp|]. split; [exact Hloc|].
  exists r, o, dst, p. repeat split; assumption.
Qed.

End WithGeo.

Lemma speed_absent_or_distance_over_hours_witness :
  set_speed (updateFields (H := Fixture.gridGeo)
               (Num 11) (Num 77) (Num 12) (Num 77) 111
               (location Fixture.movingTrip) (23 # 2) 77 3605000%Z None)
  = Some (div (Fixture.gridDistance (Num 11) (Num 77) (Num (23 # 2)) (Num 77))
              (Num (inject_Z (3605000 - 5000) / msPerHour))).
Proof.
  apply (proj2 (@speed_absent_or_distance_over_hours Fixture.gridGeo
                  (Num 11) (Num 77) (Num 12) (Num 77) 111
                  (location Fixture.movingTrip) (23 # 2) 77 3605000%Z None)
               11 77 5000%Z);
    [reflexivity | reflexivity | reflexivity | lia].
Defined.

Lemma absent_speed_leaves_stored_speed_witness :
  exists bus' w',
    speed Fixture.movingTrip = Some 40
    /\ Draft1.updateBusLocation (H := Fixture.gridGeo) "T3" (23 # 2) 77 4000%Z
                                Fixture.w0
       = (Ok (Some bus'), w')
    /\ findBus (db w') "T3" = Some bus'
    /\ speed bus' = Some 40
    /\ location bus' = {| latitude := Some (23 # 2); longitude := Some 77;
                          lastUpdated := Some 4000%Z |}
    /\ distanceTraveled bus' <> distanceTraveled Fixture.movingTrip
    /\ distanceRemaining bus' <> distanceRemaining Fixture.movingTrip
    /\ journeyCompletion bus' <> journeyCompletion Fixture.movingTrip.
Proof.
  do 2 eexists. split; [reflexivity|]. split; [lazy; reflexivity|].
  pose proof (proj2 (@absent_speed_leaves_stored_speed Fixture.gridGeo)
                "T3" (23 # 2) 77 4000%Z Fixture.w0 _
                Fixture.movingTrip _
                eq_refl eq_refl eq_refl) as (Hst & Hs & Hl & _).
  split; [exact Hst|]. split; [exact Hs|]. split; [exact Hl|].
  split; [|split]; lazy; discriminate.
Defined.

End Speed.

(** ** A write that fails *)

Module Persistence.

Import JsNumber Model Eff Mongoose TimeUtils Common Server.
Import StoreFacts Statements IndexFacts Draft1Facts.
Local Open Scope string_scope.

Section WithGeo.

Context `{Geo}.

Lemma rejected_write_throws (id : ObjectId) (la lo : Q) (now : Date)
      (w : World) :
  writeAccepted w = false ->
  exists e, Draft1.tryBlock id la lo now w = (Throw e, w).
Proof.
  intros Hw. destruct (tryBlock_cases id la lo now w) as [Ht|Hr]; [exact Ht|].
  destruct Hr as (b & r & o & dst & p & _ & _ & _ & _ & _ & _ & Hu).
  destruct (findByIdAndUpdate_rejected id (fieldsFor b r o dst p la lo now)
              [] w Hw) as [e He].
  exists e. rewrite <- Hu. exact He.
Qed.

(** C10.  The store call either applies the whole update or rejects and
    changes nothing, and it is the only write of [updateBusLocation].  So
    whenever the update ends in an error, and in particular whenever the
    store rejects the write, the store holds what it held before: no
    location, distance, completion, speed or [leftAt] entry of that update
    is applied. *)
Theorem failed_update_leaves_store :
  (forall id f push w w' e,
      findByIdAndUpdate id f push w = (Throw e, w') -> w' = w)
  /\ (forall id la lo now w w' e,
         Draft1.updateBusLocation id la lo now w = (Throw e, w') ->
         db w' = db w /\ e = Err updateFailed)
  /\ (forall id la lo now w,
         writeAccepted w = false ->
         exists detail,
           Draft1.updateBusLocation id la lo now w
           = (Throw (Err updateFailed),
              addLine w "Error updating bus location:" detail))
  /\ (forall id la lo now w w' res,
         Index.updateBusLocation id la lo now w = (res, w') ->
         db w' = db w /\ res = Throw (Err updateFailed)).
Proof.
  split; [intros; eapply findByIdAndUpdate_throw; eassumption|].
  split.
  { intros id la lo now w w' e Hu.
    apply updateBusLocation_throw in Hu.
    destruct Hu as (e0 & _ & He & Hw). subst. split; reflexivity. }
  split.
  { intros id la lo now w Hw.
    destruct (rejected_write_throws id la lo now w Hw) as [e He].
    exists (message e). unfold Draft1.updateBusLocation, tryCatch.
    rewrite He. reflexivity. }
  intros id la lo now w w' res Hu.
  destruct (updateBusLocation_throws id la lo now w) as [detail Hd].
  rewrite Hd in Hu. inversion Hu; subst. split; reflexivity.
Qed.

End WithGeo.

Lemma failed_update_leaves_store_witness :
  Draft1.updateBusLocation (H := Fixture.gridGeo) "T1" (23 # 2) 77 1000%Z
                           (Fixture.world Fixture.db0 false)
  = (Throw (Err updateFailed),
     addLine (Fixture.world Fixture.db0 false)
             "Error updating bus location:" "store unavailable")
  /\ db (addLine (Fixture.world Fixture.db0 false)
                 "Error updating bus location:" "store unavailable")
     = Fixture.db0
  /\ exists detail,
      Draft1.updateBusLocation (H := Fixture.gridGeo) "T1" (23 # 2) 77 1000%Z
                               (Fixture.world Fixture.db0 false)
      = (Throw (Err updateFailed),
         addLine (Fixture.world Fixture.db0 false)
                 "Error updating bus location:" detail).
Proof.
  split; [lazy; reflexivity|]. split.
  - apply (proj1 (proj2 (@failed_update_leaves_store Fixture.gridGeo))
                 "T1" (23 # 2) 77 1000%Z (Fixture.world Fixture.db0 false)
                 _ (Err updateFailed)).
    lazy; reflexivity.
  - apply (proj1 (proj2 (proj2 (@failed_update_leaves_store Fixture.gridGeo)))
                 "T1" (23 # 2) 77 1000%Z (Fixture.world Fixture.db0 false)).
    reflexivity.
Defined.

End Persistence.

(** ** Stop passage *)

Module StopPassage.

Import JsNumber Model Eff Mongoose TimeUtils Common Server.
Import StoreFacts Statements IndexFacts Draft1Facts.
Local Open Scope string_scope.

Section WithGeo.

Context `{Geo}.

Lemma findPassedStop_some (th la lo : Q) (ss : list BusStop) (s : BusStop) :
  findPassedStop th la lo ss = Ok (Some s) ->
  exists pre post,
    ss = (pre ++ s :: post)%list
    /\ withinThreshold th la lo s = true
    /\ forall x, In x pre -> withinThreshold th la lo x = false.
Proof.
  induction ss as [|a rest IH]; simpl; [discriminate|].
  destruct (coordinates a) as [c|] eqn:Hc; [|discriminate].
  destruct (ltb _ _) eqn:Hlt.
  - intros Heq. inversion Heq; subst a.
    exists [], rest. split; [reflexivity|]. split.
    + unfold withinThreshold. rewrite Hc. exact Hlt.
    + intros x [].
  - intros Hf. destruct (IH Hf) as (pre & post & Hss & Hw & Hpre).
    exists (a :: pre), post. split; [rewrite Hss; reflexivity|].
    split; [exact Hw|].
    intros x [Hx|Hx]; [|apply Hpre, Hx].
    subst x. unfold withinThreshold. rewrite Hc. exact Hlt.
Qed.


(** The log that an accepted update stores. *)
Lemma leftAt_after_update (id : ObjectId) (la lo : Q) (now : Date)
      (w w' : World) (bus' : ScheduledBus) :
  Draft1.updateBusLocation id la lo now w = (Ok (Some bus'), w') ->
  exists bus r passed,
    findBus (db w) id = Some bus
    /\ checkRoute (db w) bus = Ok r
    /\ findPassedStop Draft1.THRESHOLD_DISTANCE la lo
                      (routeStopDocs (db w) r) = Ok passed
    /\ leftAt bus' = Draft1.recordPassed (leftAt bus) passed now.
Proof.
  intros Hu. apply updateBusLocation_ok, tryBlock_ok in Hu.
  destruct Hu as (b & r & o & dst & p & Hb & Hr & _ & _ & _ & Hp & Hu).
  apply findByIdAndUpdate_ok in Hu.
  destruct Hu as (doc & dt & dr & jc & sp & Hd & _ & _ & _ & _ & Hdoc & _).
  rewrite Hb in Hd. inversion Hd; subst doc.
  exists b, r, p. repeat split; try assumption.
  rewrite Hdoc. cbn [applyUpdate leftAt fieldsFor updateFields set_leftAt].
  apply app_nil_r.
Qed.

(** Recording the same stop again changes nothing. *)
Lemma recordPassed_again (l : list LeftAt) (p : option BusStop)
      (t1 t2 : Date) :
  Draft1.recordPassed (Draft1.recordPassed l p t1) p t2
  = Draft1.recordPassed l p t1.
Proof.
  destruct p as [s|]; [|reflexivity]. unfold Draft1.recordPassed.
  destruct (existsb _ l) eqn:E.
  - rewrite E. reflexivity.
  - rewrite existsb_app. cbn [existsb stop].
    rewrite String.eqb_refl, orb_true_r. reflexivity.
Qed.

(** A log without two entries for one stop stays so. *)
Lemma recordPassed_NoDup (l : list LeftAt) (p : option BusStop) (t : Date) :
  NoDup (map stop l) -> NoDup (map stop (Draft1.recordPassed l p t)).
Proof.
  intros Hn. destruct p as [s|]; [|exact Hn]. unfold Draft1.recordPassed.
  destruct (existsb _ l) eqn:E; [exact Hn|].
  rewrite map_app. cbn [map stop].
  apply NoDup_app; [exact Hn | repeat constructor; intros [] |].
  intros x Hx [Hs|[]]. subst x.
  apply in_map_iff in Hx. destruct Hx as (entry & He & Hin).
  assert (Ht : existsb (fun entry => String.eqb (stop entry) (stop_id s)) l
               = true).
  { apply existsb_exists. exists entry. split; [exact Hin|].
    apply String.eqb_eq, He. }
  congruence.
Qed.


End WithGeo.



(** C3 on [src/index.js].  No report ever changes the log of a trip: the
    store after the handler is the store before it.  In particular two
    reports at the location of stop S1 leave the log of the trip empty,
    each answered with the catch-all error frame, whereas the revision
    that writes [leftAt] holds exactly one entry for S1 after the same two
    reports. *)
Theorem index_records_no_stop_passage :
  (forall (G : Geo) ws id la lo now w trip,
      storedLeftAt
        (snd (onMessage (Index.updateBusLocation (H := G)) ws
                        (LocationUpdate id la lo) now w)) trip
      = storedLeftAt w trip)
  /\ let report := LocationUpdate (Some "T1") (Some (23 # 2)) (Some 77) in
     let viaIndex :=
       onMessage (Index.updateBusLocation (H := Fixture.gridGeo)) 0 report in
     let viaDraft :=
       onMessage (Draft1.updateBusLocation (H := Fixture.gridGeo)) 0 report in
     let w2 := snd (viaIndex 2000%Z (snd (viaIndex 1000%Z Fixture.w0))) in
     let w2' := snd (viaDraft 2000%Z (snd (viaDraft 1000%Z Fixture.w0))) in
     storedLeftAt w2 "T1" = Some []
     /\ option_map (fun l => entriesFor l "S1") (storedLeftAt w2 "T1")
        = Some 0%nat
     /\ sent w2 = [ (0%nat, ErrorFrame requestFailed);
                    (0%nat, ErrorFrame requestFailed) ]
     /\ storedLeftAt w2' "T1" = Some [ {| stop := "S1"; time := 1000%Z |} ]
     /\ option_map (fun l => entriesFor l "S1") (storedLeftAt w2' "T1")
        = Some 1%nat.
Proof.
  split.
  - intros G ws id la lo now w trip.
    destruct (HandlerFacts.index_report_outcome ws id la lo now w)
      as (w' & Hrun & Hdb & _).
    rewrite Hrun. unfold storedLeftAt. cbn [snd]. rewrite Hdb. reflexivity.
  - lazy. repeat split; reflexivity.
Qed.

End StopPassage.

(** ** Errors reported to the sender *)

Module Errors.

Import JsNumber Model Eff Mongoose TimeUtils Common Server.
Import StoreFacts Statements IndexFacts Draft1Facts HandlerFacts.
Local Open Scope string_scope.


Lemma checkRoute_incomplete (d : DB) (b : ScheduledBus) :
  routeIncomplete d b <-> checkRoute d b = Throw (Err routeInvalid).
Proof.
  unfold routeIncomplete, checkRoute.
  destruct (findRoute d (Model.route b)) as [r|]; [|tauto].
  destruct (populateStop d (origin r)); [|tauto].
  destruct (populateStop d (destination r)); [|tauto].
  destruct (stops r); [|tauto].
  destruct (totalDistance r) as [t|]; [|cbn; tauto].
  destruct (truthy (Some t)); [|tauto].
  split; [|discriminate].
  intros [Hd|[Hd|[Hd|Hd]]]; discriminate.
Qed.

Section WithGeo.

Context `{Geo}.

Lemma index_not_found (id : ObjectId) (la lo : Q) (now : Date) (w : World) :
  findBus (db w) id = None ->
  Index.updateBusLocation id la lo now w
  = (Throw (Err updateFailed),
     addLine w "Error updating bus location:" notFound).
Proof.
  intros Hb. unfold Index.updateBusLocation, Index.tryBlock, rethrow.
  unfold_eff. rewrite Hb. reflexivity.
Qed.

Lemma draft_not_found (id : ObjectId) (la lo : Q) (now : Date) (w : World) :
  findBus (db w) id = None ->
  Draft1.updateBusLocation id la lo now w
  = (Throw (Err updateFailed),
     addLine w "Error updating bus location:" notFound).
Proof.
  intros Hb. unfold Draft1.updateBusLocation, Draft1.tryBlock, rethrow.
  unfold_eff. rewrite Hb. reflexivity.
Qed.

Lemma index_route_incomplete (id : ObjectId) (la lo : Q) (now : Date)
      (w : World) (b : ScheduledBus) :
  findBus (db w) id = Some b ->
  routeIncomplete (db w) b ->
  Index.updateBusLocation id la lo now w
  = (Throw (Err updateFailed),
     addLine w "Error updating bus location:" routeInvalid).
Proof.
  intros Hb Hr. apply checkRoute_incomplete in Hr.
  unfold Index.updateBusLocation, Index.tryBlock, rethrow.
  unfold_eff. rewrite Hb, Hr. reflexivity.
Qed.

Lemma draft_route_incomplete (id : ObjectId) (la lo : Q) (now : Date)
      (w : World) (b : ScheduledBus) :
  findBus (db w) id = Some b ->
  routeIncomplete (db w) b ->
  Draft1.updateBusLocation id la lo now w
  = (Throw (Err updateFailed),
     addLine w "Error updating bus location:" routeInvalid).
Proof.
  intros Hb Hr. apply checkRoute_incomplete in Hr.
  unfold Draft1.updateBusLocation, Draft1.tryBlock, rethrow.
  unfold_eff. rewrite Hb, Hr. reflexivity.
Qed.

(** C8, as amended.  An update fails both when no trip has the given id
    and when the route of the trip is incomplete (no route, unresolved
    origin or destination, no stop sequence, [totalDistance] missing or
    zero).  The two cases differ in the line written to the console only:
    the caller is thrown the same [Error updating bus location], the store
    is untouched, and the sender of the report is sent the same catch-all
    frame. *)
Theorem lookup_failures_rethrown_alike :
  (forall id la lo now w,
      findBus (db w) id = None ->
      Index.updateBusLocation id la lo now w
      = (Throw (Err updateFailed),
         addLine w "Error updating bus location:" notFound)
      /\ Draft1.updateBusLocation id la lo now w
         = (Throw (Err updateFailed),
            addLine w "Error updating bus location:" notFound))
  /\ (forall id la lo now w b,
         findBus (db w) id = Some b ->
         routeIncomplete (db w) b ->
         Index.updateBusLocation id la lo now w
         = (Throw (Err updateFailed),
            addLine w "Error updating bus location:" routeInvalid)
         /\ Draft1.updateBusLocation id la lo now w
            = (Throw (Err updateFailed),
               addLine w "Error updating bus location:" routeInvalid))
  /\ (forall (upd : ObjectId -> Q -> Q -> Date -> M (option ScheduledBus))
             ws id la lo now w w1 e,
         hasFields (Some id) (Some la) (Some lo) = true ->
         upd id la lo now w = (Throw e, w1) ->
         let w' := snd (onMessage upd ws
                          (LocationUpdate (Some id) (Some la) (Some lo))
                          now w) in
         sent w' = (sent w1 ++ [(ws, ErrorFrame requestFailed)])%list
         /\ db w' = db w1).
Proof.
  split.
  { intros id la lo now w Hb.
    split; [apply index_not_found | apply draft_not_found]; exact Hb. }
  split.
  { intros id la lo now w b Hb Hr.
    split; [eapply index_route_incomplete | eapply draft_route_incomplete];
      eassumption. }
  intros upd ws id la lo now w w1 e Hf Hu.
  rewrite (onMessage_update_throws upd ws id la lo now w Hf Hu).
  split; reflexivity.
Qed.

End WithGeo.

Lemma lookup_failures_rethrown_alike_witness :
  (Draft1.updateBusLocation (H := Fixture.gridGeo) "nope" 11 77 1000%Z
                            Fixture.w0
   = (Throw (Err updateFailed),
      addLine Fixture.w0 "Error updating bus location:" notFound))
  /\ (Draft1.updateBusLocation (H := Fixture.gridGeo) "T2" 11 77 1000%Z
                               Fixture.w0
      = (Throw (Err updateFailed),
         addLine Fixture.w0 "Error updating bus location:" routeInvalid))
  /\ sent (snd (onMessage (Draft1.updateBusLocation (H := Fixture.gridGeo))
                          0 (LocationUpdate (Some "T2") (Some 11) (Some 77))
                          1000%Z Fixture.w0))
     = [(0%nat, ErrorFrame requestFailed)].
Proof.
  split.
  { apply (proj1 (@lookup_failures_rethrown_alike Fixture.gridGeo)
                 "nope" 11 77 1000%Z Fixture.w0).
    reflexivity. }
  split.
  { apply (proj1 (proj2 (@lookup_failures_rethrown_alike Fixture.gridGeo))
                 "T2" 11 77 1000%Z Fixture.w0 (Fixture.newTrip "T2" "R2" 2%Z)).
    - reflexivity.
    - lazy. tauto. }
  apply (proj2 (proj2 (@lookup_failures_rethrown_alike Fixture.gridGeo))
               (Draft1.updateBusLocation (H := Fixture.gridGeo))
               0%nat "T2" 11 77 1000%Z Fixture.w0
               (addLine Fixture.w0 "Error updating bus location:" routeInvalid)
               (Err updateFailed)).
  - reflexivity.
  - lazy; reflexivity.
Defined.

(** C8, as stated, fails: an id that names no trip and a trip whose route
    lacks [totalDistance] give the caller the same error and the sender
    the same frame. *)
Lemma not_found_and_incomplete_route_reported_alike :
  findBus Fixture.db0 "nope" = None
  /\ routeIncomplete Fixture.db0 (Fixture.newTrip "T2" "R2" 2%Z)
  /\ ~ distinguishes
       (fst (Index.updateBusLocation (H := Fixture.gridGeo)
               "nope" 11 77 1000%Z Fixture.w0))
       (fst (Index.updateBusLocation (H := Fixture.gridGeo)
               "T2" 11 77 1000%Z Fixture.w0))
  /\ ~ distinguishes
       (fst (Draft1.updateBusLocation (H := Fixture.gridGeo)
               "nope" 11 77 1000%Z Fixture.w0))
       (fst (Draft1.updateBusLocation (H := Fixture.gridGeo)
               "T2" 11 77 1000%Z Fixture.w0))
  /\ ~ distinguishes
       (sent (snd (onMessage (Index.updateBusLocation (H := Fixture.gridGeo))
                     0 (LocationUpdate (Some "nope") (Some 11) (Some 77))
                     1000%Z Fixture.w0)))
       (sent (snd (onMessage (Index.updateBusLocation (H := Fixture.gridGeo))
                     0 (LocationUpdate (Some "T2") (Some 11) (Some 77))
                     1000%Z Fixture.w0))).
Proof.
  split; [reflexivity|]. split; [lazy; tauto|].
  unfold distinguishes.
  repeat split; intros Hd; apply Hd; lazy; reflexivity.
Qed.




End Errors.

(** ** The stop query *)

Module StopQuery.

Import JsNumber Model Eff Mongoose TimeUtils Common Paginate Server.
Import StoreFacts Statements.
Local Open Scope string_scope.

Lemma insert_In (b x : ScheduledBus) (l : list ScheduledBus) :
  In x (insertByCreatedAt b l) <-> x = b \/ In x l.
Proof.
  induction l as [|a rest IH]; simpl.
  - intuition congruence.
  - destruct (createdAt b <=? createdAt a)%Z; simpl; [intuition congruence|].
    rewrite IH. intuition congruence.
Qed.

Lemma sort_In (x : ScheduledBus) (l : list ScheduledBus) :
  In x (sortByCreatedAt l) <-> In x l.
Proof.
  induction l as [|a rest IH]; simpl; [tauto|].
  rewrite insert_In, IH. intuition congruence.
Qed.

Lemma insert_sorted (b : ScheduledBus) (l : list ScheduledBus) :
  StronglySorted byCreation l ->
  StronglySorted byCreation (insertByCreatedAt b l).
Proof.
  induction l as [|a rest IH]; simpl; intros Hs.
  - repeat constructor.
  - apply StronglySorted_inv in Hs. destruct Hs as [Hrest Ha].
    destruct (createdAt b <=? createdAt a)%Z eqn:E.
    + apply Z.leb_le in E. constructor.
      * constructor; assumption.
      * constructor; [exact E|].
        rewrite Forall_forall in *. intros y Hy.
        specialize (Ha y Hy). unfold byCreation in *. lia.
    + apply Z.leb_gt in E. constructor; [apply IH, Hrest|].
      rewrite Forall_forall in *. intros y Hy.
      apply insert_In in Hy. destruct Hy as [Hy|Hy].
      * subst y. unfold byCreation. lia.
      * apply Ha, Hy.
Qed.

Lemma sort_sorted (l : list ScheduledBus) :
  StronglySorted byCreation (sortByCreatedAt l).
Proof.
  induction l as [|a rest IH]; simpl; [constructor | apply insert_sorted, IH].
Qed.

Lemma firstn_incl (n : nat) (l : list ScheduledBus) : incl (firstn n l) l.
Proof.
  revert n. induction l as [|a rest IH]; intros [|n]; simpl; intros y Hy;
    try contradiction.
  destruct Hy as [Hy|Hy]; [left; exact Hy | right; eapply IH, Hy].
Qed.

Lemma skipn_incl (n : nat) (l : list ScheduledBus) : incl (skipn n l) l.
Proof.
  revert n. induction l as [|a rest IH]; intros [|n]; simpl;
    try (intros x Hx; exact Hx).
  intros x Hx. right. eapply IH, Hx.
Qed.

Lemma firstn_sorted (n : nat) (l : list ScheduledBus) :
  StronglySorted byCreation l -> StronglySorted byCreation (firstn n l).
Proof.
  revert n. induction l as [|a rest IH]; intros [|n] Hs; simpl;
    try constructor.
  - apply IH. apply StronglySorted_inv in Hs. tauto.
  - apply StronglySorted_inv in Hs. destruct Hs as [_ Ha].
    eapply incl_Forall; [apply firstn_incl | exact Ha].
Qed.

Lemma skipn_sorted (n : nat) (l : list ScheduledBus) :
  StronglySorted byCreation l -> StronglySorted byCreation (skipn n l).
Proof.
  revert n. induction l as [|a rest IH]; intros [|n] Hs; simpl;
    try assumption.
  apply IH. apply StronglySorted_inv in Hs. tauto.
Qed.

Lemma filter_sorted (f : ScheduledBus -> bool) (l : list ScheduledBus) :
  StronglySorted byCreation l -> StronglySorted byCreation (filter f l).
Proof.
  induction l as [|a rest IH]; simpl; intros Hs; [constructor|].
  apply StronglySorted_inv in Hs. destruct Hs as [Hrest Ha].
  destruct (f a); [|apply IH, Hrest].
  constructor; [apply IH, Hrest|].
  eapply incl_Forall; [apply incl_filter | exact Ha].
Qed.

Lemma paginate_sorted (page limit : nat) (l : list ScheduledBus) :
  StronglySorted byCreation (paginate page limit l).
Proof. apply firstn_sorted, skipn_sorted, sort_sorted. Qed.

Lemma paginate_incl (page limit : nat) (l : list ScheduledBus) :
  incl (paginate page limit l) l.
Proof.
  intros x Hx. apply firstn_incl, skipn_incl in Hx.
  apply sort_In, Hx.
Qed.

Lemma someR_resolved (d : DB) (id : ObjectId) (ss : list RouteStop) :
  (forall st, In st ss -> findStop d (stopId st) <> None) ->
  someR (fun stop =>
           match findStop d (stopId stop) with
           | None => Throw (TypeError "Cannot read properties of null (reading '_id')")
           | Some s => Ok (String.eqb (stop_id s) id)
           end) ss
  = Ok (existsb (fun st => String.eqb (stopId st) id) ss).
Proof.
  induction ss as [|a rest IH]; simpl; intros Hr; [reflexivity|].
  destruct (findStop d (stopId a)) as [s|] eqn:Hs.
  - apply find_stop_id in Hs. rewrite Hs.
    destruct (String.eqb (stopId a) id); [reflexivity|].
    apply IH. intros st Hst. apply Hr. right. exact Hst.
  - exfalso. apply (Hr a); [left; reflexivity | exact Hs].
Qed.

Lemma stopMatches_resolved (d : DB) (id : ObjectId) (b : ScheduledBus) :
  resolved d b -> stopMatches d id b = Ok (serves d id b).
Proof.
  intros (r & ss & Hr & Hss & Hall). unfold stopMatches, serves.
  rewrite Hr, Hss. apply someR_resolved, Hall.
Qed.

Lemma filterR_total {A} (p : A -> Result bool) (q : A -> bool) (l : list A) :
  (forall x, In x l -> p x = Ok (q x)) ->
  filterR p l = Ok (filter q l).
Proof.
  induction l as [|a rest IH]; simpl; intros Hp; [reflexivity|].
  rewrite (Hp a (or_introl eq_refl)).
  rewrite IH; [reflexivity|]. intros x Hx. apply Hp. right. exact Hx.
Qed.

Section AnyRevision.

Variable updateBusLocation :
  ObjectId -> Q -> Q -> Date -> M (option ScheduledBus).

Lemma onMessage_stop_request (ws : nat) (id : ObjectId)
      (status : option (list string)) (now : Date) (w : World) :
  truthyStr (Some id) = true ->
  (forall b, In b (firstPage (db w)) -> resolved (db w) b) ->
  exists w',
    onMessage updateBusLocation ws (BusStopRequest (Some id) status) now w
    = (Ok tt, w')
    /\ db w' = db w
    /\ sent w' = (sent w
                  ++ [(ws, BusStopResponse (answer (db w) id status))])%list.
Proof.
  intros Hid Hres. unfold onMessage, onBusStopRequest. rewrite Hid.
  unfold_eff.
  fold (firstPage (db w)).
  rewrite (filterR_total (stopMatches (db w) id) (serves (db w) id));
    [|intros b Hb; apply stopMatches_resolved, Hres, Hb].
  replace (match status with
           | Some (s :: more) =>
               filter (fun schedule =>
                         includes (s :: more) (Model.status schedule))
                      (filter (serves (db w) id) (firstPage (db w)))
           | _ => filter (serves (db w) id) (firstPage (db w))
           end) with (answer (db w) id status).
  2:{ unfold answer, statusAllowed.
      destruct status as [[|s more]|]; try reflexivity;
        first [apply filter_true | symmetry; apply filter_true]. }
  destruct (length (answer (db w) id status) =? 0)%nat;
    eexists; (split; [reflexivity|]); split; reflexivity.
Qed.

End AnyRevision.

(** What the handler computes.  It takes the first page of ten of all
    trips in order of creation and, when the references on that page
    resolve, answers with those trips of the page whose route lists the
    stop, restricted to the given statuses when a non-empty filter is
    given, still in order of creation.  The frame goes to the sender and
    the store is untouched. *)
Theorem stop_query_filters_first_page :
  (forall (upd : ObjectId -> Q -> Q -> Date -> M (option ScheduledBus))
          ws id status now w,
      truthyStr (Some id) = true ->
      (forall b, In b (firstPage (db w)) -> resolved (db w) b) ->
      exists w',
        onMessage upd ws (BusStopRequest (Some id) status) now w = (Ok tt, w')
        /\ db w' = db w
        /\ sent w' = (sent w
                      ++ [(ws, BusStopResponse (answer (db w) id status))])%list)
  /\ (forall d id status,
         (forall b,
             In b (answer d id status)
             <-> In b (firstPage d)
                 /\ serves d id b = true
                 /\ statusAllowed status b = true)
         /\ StronglySorted byCreation (answer d id status)
         /\ (length (answer d id status) <= 10)%nat
         /\ ((forall b, In b (firstPage d) -> serves d id b = false) ->
             answer d id status = []))
  /\ (forall d,
         firstPage d = firstn 10 (sortByCreatedAt (scheduledBuses d))
         /\ StronglySorted byCreation (sortByCreatedAt (scheduledBuses d))
         /\ forall b,
             In b (sortByCreatedAt (scheduledBuses d))
             <-> In b (scheduledBuses d)).
Proof.
  split; [intros; apply onMessage_stop_request; assumption|].
  split.
  - intros d id status. split; [|split; [|split]].
    + intros b. unfold answer. rewrite !filter_In. tauto.
    + unfold answer, firstPage.
      apply filter_sorted, filter_sorted, paginate_sorted.
    + unfold answer, firstPage, paginate.
      eapply Nat.le_trans; [apply filter_length_le|].
      eapply Nat.le_trans; [apply filter_length_le|].
      apply firstn_le_length.
    + intros Hnone. unfold answer.
      replace (filter (serves d id) (firstPage d)) with (@nil ScheduledBus);
        [reflexivity|].
      symmetry. induction (firstPage d) as [|a rest IH]; [reflexivity|].
      simpl. rewrite (Hnone a (or_introl eq_refl)).
      apply IH. intros b Hb. apply Hnone. right. exact Hb.
  - intros d. split; [reflexivity|].
    split; [apply sort_sorted | intros b; apply sort_In].
Qed.

Lemma stop_query_filters_first_page_witness :
  exists w',
    onMessage (Index.updateBusLocation (H := Fixture.gridGeo)) 0
              (BusStopRequest (Some "S1") (Some ["On Route"])) 0%Z Fixture.w0
    = (Ok tt, w')
    /\ db w' = db Fixture.w0
    /\ sent w' = [(0%nat, BusStopResponse [Fixture.movingTrip])].
Proof.
  destruct (proj1 stop_query_filters_first_page
              (Index.updateBusLocation (H := Fixture.gridGeo))
              0%nat "S1" (Some ["On Route"]) 0%Z Fixture.w0 eq_refl)
    as (w' & Hrun & Hdb & Hsent).
  - intros b Hb. lazy in Hb.
    destruct Hb as [Hb|[Hb|[Hb|[]]]]; subst b;
      (eexists; eexists; split; [lazy; reflexivity|];
       split; [reflexivity|]; intros st Hst; lazy in Hst;
       repeat (destruct Hst as [Hst|Hst]; [subst st; lazy; discriminate|]);
       destruct Hst).
  - exists w'. split; [exact Hrun|]. split; [exact Hdb|].
    rewrite Hsent. lazy. reflexivity.
Defined.

(** C9 on [src/index.js].  Eleven trips, of which only the one created
    last serves S1.  The handler pages before it filters: that trip is not
    on the page of the ten oldest, so the query for S1 is answered with the
    empty list and the console says that no bus was found, although the
    trip is in the store, its route lists S1, and it is what the query is
    specified to return. *)
Theorem stop_query_misses_trip_beyond_first_page :
  let res :=
    onMessage (Index.updateBusLocation (H := Fixture.gridGeo)) 0
              (BusStopRequest (Some "S1") None) 0%Z
              (Fixture.world Fixture.db11 true) in
  let t11 := Fixture.newTrip "T11" "R1" 10%Z in
  fst res = Ok tt
  /\ sent (snd res) = [(0%nat, BusStopResponse [])]
  /\ console (snd res)
     = [("No scheduled buses found for the provided bus stop or status."%string,
         ""%string)]
  /\ In t11 (scheduledBuses Fixture.db11)
  /\ serves Fixture.db11 "S1" t11 = true
  /\ ~ In t11 (firstPage Fixture.db11)
  /\ length (firstPage Fixture.db11) = 10%nat
  /\ specQuery Fixture.db11 "S1" None = [t11]
  /\ sent (snd res)
     <> [(0%nat, BusStopResponse (specQuery Fixture.db11 "S1" None))].
Proof.
  cbv zeta. split; [lazy; reflexivity|].
  split; [lazy; reflexivity|].
  split; [lazy; reflexivity|].
  split; [lazy; tauto|].
  split; [lazy; reflexivity|].
  split.
  { lazy. intros Hin.
    repeat (destruct Hin as [Hin|Hin]; [discriminate Hin|]). exact Hin. }
  split; [lazy; reflexivity|].
  split; [lazy; reflexivity|].
  lazy. discriminate.
Qed.

End StopQuery.

(** ** The handler on other messages *)

Module HandlerEdges.

Import JsNumber Model Eff Mongoose TimeUtils Common Paginate Server.
Import StoreFacts Statements Statements2 Draft1Facts HandlerFacts.
Local Open Scope string_scope.

Lemma filterR_sound {A} (p : A -> Result bool) (l l' : list A) :
  filterR p l = Ok l' ->
  forall x, In x l' -> In x l /\ p x = Ok true.
Proof.
  revert l'. induction l as [|a rest IH]; simpl; intros l' Hf x Hx.
  - inversion Hf; subst. destruct Hx.
  - destruct (p a) as [keep|e] eqn:Hp; [|discriminate].
    destruct (filterR p rest) as [rest'|e]; [|discriminate].
    inversion Hf; subst l'. destruct keep.
    + destruct Hx as [Hx|Hx].
      * subst x. split; [left; reflexivity | exact Hp].
      * destruct (IH rest' eq_refl x Hx) as [Hin Hpx]. split; [right|]; assumption.
    + destruct (IH rest' eq_refl x Hx) as [Hin Hpx]. split; [right|]; assumption.
Qed.

Section AnyRevision.

Variable updateBusLocation :
  ObjectId -> Q -> Q -> Date -> M (option ScheduledBus).

(** A stop query without a usable stop id is answered with [Bus stop ID
    is required] to the sender; nothing is looked up, logged or changed,
    whatever the status filter. *)
Theorem stop_request_without_id (ws : nat) (id : option ObjectId)
        (status : option (list string)) (now : Date) (w : World) :
  truthyStr id = false ->
  onMessage updateBusLocation ws (BusStopRequest id status) now w
  = (Ok tt, addSent w [(ws, ErrorFrame stopIdRequired)]).
Proof.
  intros Hid. unfold onMessage, onBusStopRequest. unfold_eff.
  destruct id as [id|]; [rewrite Hid|]; reflexivity.
Qed.

(** No exception leaves the handler, whatever [updateBusLocation] does.
    A message that does not parse, and the message [null], are logged and
    answered with the catch-all frame to the sender, the store untouched;
    an object of another type is ignored without a trace. *)
Theorem no_exception_escapes :
  (forall ws msg now w,
      fst (onMessage updateBusLocation ws msg now w) = Ok tt)
  /\ (forall ws now w,
         onMessage updateBusLocation ws Unparseable now w
         = (Ok tt,
            addSent (addLine w "Error processing WebSocket message:"
                             (message SyntaxError))
                    [(ws, ErrorFrame requestFailed)]))
  /\ (forall ws now w,
         onMessage updateBusLocation ws ParsedNull now w
         = (Ok tt,
            addSent (addLine w "Error processing WebSocket message:"
                             "Cannot read properties of null (reading 'type')")
                    [(ws, ErrorFrame requestFailed)]))
  /\ (forall ws now w,
         onMessage updateBusLocation ws OtherType now w = (Ok tt, w)).
Proof.
  split; [|split; [|split]; reflexivity].
  intros ws msg now w. unfold onMessage, tryCatch.
  match goal with
  | |- fst (match ?m w with _ => _ end) = _ => destruct (m w) as [[[]|e] w']
  end; reflexivity.
Qed.

(** A stop query never writes to the store and never addresses anyone
    but its sender, even when a reference on the page does not resolve:
    it sends exactly one frame, which is an error or a list of trips taken
    from the first page, each serving the stop and passing the status
    filter. *)
Theorem stop_request_only_answers_sender (ws : nat) (id : option ObjectId)
        (status : option (list string)) (now : Date) (w : World) :
  exists frame w',
    onMessage updateBusLocation ws (BusStopRequest id status) now w
    = (Ok tt, w')
    /\ db w' = db w
    /\ clients w' = clients w
    /\ sent w' = (sent w ++ [(ws, frame)])%list
    /\ (frame = ErrorFrame stopIdRequired
        \/ frame = ErrorFrame requestFailed
        \/ exists buses stopRef,
            frame = BusStopResponse buses
            /\ id = Some stopRef
            /\ (length buses <= 10)%nat
            /\ forall b, In b buses ->
                         In b (firstPage (db w))
                         /\ stopMatches (db w) stopRef b = Ok true
                         /\ statusAllowed status b = true).
Proof.
  destruct (truthyStr id) eqn:Hid.
  2:{ rewrite (stop_request_without_id ws id status now w Hid).
      do 2 eexists. repeat split; try reflexivity. left. reflexivity. }
  destruct id as [id|]; [|discriminate].
  unfold onMessage, onBusStopRequest. rewrite Hid. unfold_eff.
  fold (firstPage (db w)).
  destruct (filterR (stopMatches (db w) id) (firstPage (db w)))
    as [matched|e] eqn:Hf.
  2:{ do 2 eexists. repeat split; try reflexivity. right. left. reflexivity. }
  set (answered :=
         match status with
         | Some (s :: more) =>
             filter (fun schedule =>
                       includes (s :: more) (Model.status schedule)) matched
         | _ => matched
         end).
  assert (Hans : forall b, In b answered ->
                           In b matched /\ statusAllowed status b = true).
  { intros b Hb. unfold answered in Hb. unfold statusAllowed.
    destruct status as [[|s more]|]; try (split; [exact Hb | reflexivity]).
    apply filter_In in Hb. exact Hb. }
  assert (Hlen : (length answered <= 10)%nat).
  { assert (Hm : (length matched <= 10)%nat).
    { assert (Hle : forall (l l' : list ScheduledBus),
                filterR (stopMatches (db w) id) l = Ok l' ->
                (length l' <= length l)%nat).
      { induction l as [|a rest IH]; simpl; intros l' Hl.
        - inversion Hl. apply Nat.le_refl.
        - destruct (stopMatches (db w) id a) as [keep|]; [|discriminate].
          destruct (filterR _ rest) as [rest'|]; [|discriminate].
          inversion Hl. specialize (IH rest' eq_refl).
          destruct keep; simpl; lia. }
      specialize (Hle _ _ Hf).
      eapply Nat.le_trans; [exact Hle|].
      unfold firstPage, paginate. apply firstn_le_length. }
    unfold answered. destruct status as [[|s more]|]; try exact Hm.
    eapply Nat.le_trans; [apply filter_length_le | exact Hm]. }
  destruct (length answered =? 0)%nat;
    (do 2 eexists; repeat split; try reflexivity;
     right; right; exists answered, id;
     repeat split; try reflexivity; try exact Hlen;
     destruct (Hans b H) as [Hm Hs];
     destruct (filterR_sound _ _ Hf b Hm); assumption).
Qed.

End AnyRevision.

Lemma stop_request_without_id_witness :
  onMessage (Index.updateBusLocation (H := Fixture.gridGeo)) 3
            (BusStopRequest (Some "") (Some ["Scheduled"])) 0%Z Fixture.w0
  = (Ok tt, addSent Fixture.w0 [(3%nat, ErrorFrame stopIdRequired)]).
Proof.
  apply (stop_request_without_id
           (Index.updateBusLocation (H := Fixture.gridGeo))
           3%nat (Some "") (Some ["Scheduled"]) 0%Z Fixture.w0).
  reflexivity.
Defined.

End HandlerEdges.

(** ** An accepted update *)

Module Accepted.

Import JsNumber Model Eff Mongoose TimeUtils Common Paginate Server.
Import NumberFacts StoreFacts Statements Statements2 Draft1Facts HandlerFacts.
Local Open Scope string_scope.

Lemma find_replaceById_other (l : list ScheduledBus) (id id' : ObjectId)
      (doc' : ScheduledBus) :
  id' <> id -> bus_id doc' = id ->
  find (fun b => String.eqb (bus_id b) id') (replaceById id doc' l)
  = find (fun b => String.eqb (bus_id b) id') l.
Proof.
  intros Hne Hid. induction l as [|b rest IH]; simpl; [reflexivity|].
  destruct (String.eqb (bus_id b) id) eqn:E; simpl.
  - apply String.eqb_eq in E.
    assert (E1 : String.eqb (bus_id doc') id' = false).
    { apply String.eqb_neq. congruence. }
    assert (E2 : String.eqb (bus_id b) id' = false).
    { apply String.eqb_neq. congruence. }
    rewrite E1, E2. reflexivity.
  - destruct (String.eqb (bus_id b) id'); [reflexivity | exact IH].
Qed.

Lemma length_replaceById (l : list ScheduledBus) (id : ObjectId)
      (doc' : ScheduledBus) :
  length (replaceById id doc' l) = length l.
Proof.
  induction l as [|b rest IH]; simpl; [reflexivity|].
  destruct (String.eqb (bus_id b) id); simpl; congruence.
Qed.

Lemma findByIdAndUpdate_null (id : ObjectId) (f : UpdateFields)
      (push : list LeftAt) (w w' : World) :
  findByIdAndUpdate id f push w = (Ok None, w') -> findBus (db w) id = None.
Proof.
  unfold findByIdAndUpdate. unfold_eff.
  destruct (castNumber _ (set_distanceTraveled f)); [|discriminate].
  destruct (castNumber _ (set_distanceRemaining f)); [|discriminate].
  destruct (castNumber _ (set_journeyCompletion f)); [|discriminate].
  destruct (castOptional _ (set_speed f)); [|discriminate].
  destruct (writeAccepted w); simpl; [|discriminate].
  destruct (findBus (db w) id); [discriminate | reflexivity].
Qed.

Section WithGeo.

Context `{Geo}.

(** What an accepted update went through and what it stored. *)
Lemma accepted_shape (id : ObjectId) (la lo : Q) (now : Date) (w w' : World)
      (res : option ScheduledBus) :
  Draft1.updateBusLocation id la lo now w = (Ok res, w') ->
  exists bus r o dst p dt dr jc sp,
    findBus (db w) id = Some bus
    /\ checkRoute (db w) bus = Ok r
    /\ Draft1.readCoordinates (r_origin r) = Ok o
    /\ Draft1.readCoordinates (r_destination r) = Ok dst
    /\ findPassedStop Draft1.THRESHOLD_DISTANCE la lo
                      (routeStopDocs (db w) r) = Ok p
    /\ set_distanceTraveled (fieldsFor bus r o dst p la lo now) = Num dt
    /\ set_distanceRemaining (fieldsFor bus r o dst p la lo now) = Num dr
    /\ set_journeyCompletion (fieldsFor bus r o dst p la lo now) = Num jc
    /\ castOptional "speed" (set_speed (fieldsFor bus r o dst p la lo now))
       = Ok sp
    /\ res = Some (applyUpdate (fieldsFor bus r o dst p la lo now)
                               dt dr jc sp [] bus)
    /\ w' = withDb w (withBuses (db w)
                        (replaceById id
                           (applyUpdate (fieldsFor bus r o dst p la lo now)
                                        dt dr jc sp [] bus)
                           (scheduledBuses (db w)))).
Proof.
  intros Hu. apply updateBusLocation_ok, tryBlock_ok in Hu.
  destruct Hu as (b & r & o & dst & p & Hb & Hr & _ & Ho & Hd & Hp & Hu).
  destruct res as [bus'|].
  - apply findByIdAndUpdate_ok in Hu.
    destruct Hu as (doc & dt & dr & jc & sp & Hdoc & Hdt & Hdr & Hjc & Hsp
                    & Hbus & Hw).
    rewrite Hb in Hdoc. inversion Hdoc; subst doc.
    exists b, r, o, dst, p, dt, dr, jc, sp.
    subst bus'. repeat split; assumption.
  - apply findByIdAndUpdate_null in Hu. congruence.
Qed.

(** An accepted update returns the updated trip, never [null].  The
    handler then sends one [busUpdate] frame to each client whose socket
    is open and to no one else; the frame carries every trip of the store
    as it is after the update, the updated trip among them. *)
Theorem accepted_update_broadcast (ws : nat) (id : ObjectId) (la lo : Q)
        (now : Date) (w w1 : World) (res : option ScheduledBus) :
  truthyStr (Some id) = true ->
  Draft1.updateBusLocation id la lo now w = (Ok res, w1) ->
  let roster := BusUpdate (scheduledBuses (db w1)) in
  exists bus',
    res = Some bus'
    /\ In bus' (scheduledBuses (db w1))
    /\ clients w1 = clients w
    /\ onMessage Draft1.updateBusLocation ws
                 (LocationUpdate (Some id) (Some la) (Some lo)) now w
       = (Ok tt, addSent w1 (toOpenClients w1 roster))
    /\ forall c frame,
        In (c, frame) (toOpenClients w1 roster)
        <-> frame = roster /\ isOpenClient w1 c.
Proof.
  intros Hid Hu roster.
  pose proof Hu as Hshape. apply accepted_shape in Hshape.
  destruct Hshape
    as (b & r & o & dst & p & dt & dr & jc & sp & Hb & _ & _ & _ & _ & _ & _
        & _ & _ & Hres & Hw).
  eexists. split; [exact Hres|].
  rewrite Hres in Hu. split.
  { apply stored_after_update in Hu. unfold findBus in Hu.
    apply find_some in Hu. tauto. }
  split; [rewrite Hw; reflexivity|].
  split; [exact (onMessage_update_returns _ ws id la lo now w Hid Hu)|].
  intros c frame. unfold toOpenClients, isOpenClient.
  rewrite in_map_iff. split.
  - intros (cl & Heq & Hin). inversion Heq; subst.
    apply filter_In in Hin. split; [reflexivity|].
    exists cl. tauto.
  - intros (Hf & cl & Hin & Hc & Ho). subst.
    exists cl. split; [reflexivity|]. apply filter_In. tauto.
Qed.

(** An accepted update changes the one trip it names.  Routes and stops
    are as before, no trip is added or removed, every other trip is the
    document it was, and the updated trip keeps its id, route, status and
    creation time. *)
Theorem accepted_update_touches_one_trip (id : ObjectId) (la lo : Q)
        (now : Date) (w w' : World) (bus' : ScheduledBus) :
  Draft1.updateBusLocation id la lo now w = (Ok (Some bus'), w') ->
  routes (db w') = routes (db w)
  /\ busStops (db w') = busStops (db w)
  /\ length (scheduledBuses (db w')) = length (scheduledBuses (db w))
  /\ (forall other, other <> id -> findBus (db w') other = findBus (db w) other)
  /\ exists bus,
      findBus (db w) id = Some bus
      /\ bus_id bus' = bus_id bus
      /\ Model.route bus' = Model.route bus
      /\ status bus' = status bus
      /\ createdAt bus' = createdAt bus.
Proof.
  intros Hu.
  pose proof Hu as Hshape. apply accepted_shape in Hshape.
  destruct Hshape
    as (b & r & o & dst & p & dt & dr & jc & sp & Hb & _ & _ & _ & _ & _ & _
        & _ & _ & Hres & Hw).
  injection Hres as Hbus. subst bus' w'.
  cbn [withDb db withBuses routes busStops scheduledBuses].
  split; [reflexivity|]. split; [reflexivity|].
  split; [apply length_replaceById|].
  split.
  - intros other Hne. unfold findBus. cbn [scheduledBuses].
    apply find_replaceById_other; [exact Hne|].
    cbn [applyUpdate bus_id]. eapply find_bus_id, Hb.
  - exists b. repeat split; try reflexivity. exact Hb.
Qed.

End WithGeo.

Lemma accepted_update_broadcast_witness :
  exists res w1,
    Draft1.updateBusLocation (H := Fixture.gridGeo) "T1" (23 # 2) 77 1000%Z
                             Fixture.w0 = (Ok res, w1)
    /\ sent (snd (onMessage (Draft1.updateBusLocation (H := Fixture.gridGeo)) 2
                            (LocationUpdate (Some "T1") (Some (23 # 2))
                                            (Some 77))
                            1000%Z Fixture.w0))
       = [ (0%nat, BusUpdate (scheduledBuses (db w1)));
           (1%nat, BusUpdate (scheduledBuses (db w1))) ].
Proof.
  do 2 eexists. split; [lazy; reflexivity|].
  destruct (@accepted_update_broadcast Fixture.gridGeo 2%nat "T1" (23 # 2) 77
              1000%Z Fixture.w0 _ _ eq_refl eq_refl)
    as (bus' & _ & _ & _ & Hrun & _).
  refine (eq_trans (f_equal (fun r => sent (snd r)) Hrun) _).
  lazy. reflexivity.
Defined.

Lemma accepted_update_touches_one_trip_witness :
  exists bus' w',
    Draft1.updateBusLocation (H := Fixture.gridGeo) "T1" (23 # 2) 77 1000%Z
                             Fixture.w0 = (Ok (Some bus'), w')
    /\ findBus (db w') "T3" = Some Fixture.movingTrip
    /\ length (scheduledBuses (db w')) = 3%nat.
Proof.
  do 2 eexists. split; [lazy; reflexivity|].
  destruct (@accepted_update_touches_one_trip Fixture.gridGeo "T1" (23 # 2) 77
              1000%Z Fixture.w0 _ _ eq_refl)
    as (_ & _ & Hlen & Hother & _).
  split; [|exact Hlen].
  refine (eq_trans (Hother "T3" _) _); [discriminate | reflexivity].
Defined.

End Accepted.

(** ** The log of passed stops *)

Module StopLog.

Import JsNumber Model Eff Mongoose TimeUtils Common Paginate Server.
Import StoreFacts Statements Statements2 Draft1Facts StopPassage.
Local Open Scope string_scope.

Section WithGeo.

Context `{Geo}.

(** The log only grows, by at most one entry per accepted update.  The
    new entry is stamped with the time of the update and names a stop
    document of the store that is within the threshold of the fix and had
    no entry yet; a log without two entries for one stop stays so. *)
Theorem log_grows_by_at_most_one (id : ObjectId) (la lo : Q) (now : Date)
        (w w' : World) (bus' : ScheduledBus) :
  Draft1.updateBusLocation id la lo now w = (Ok (Some bus'), w') ->
  exists bus added,
    findBus (db w) id = Some bus
    /\ leftAt bus' = (leftAt bus ++ added)%list
    /\ (length added <= 1)%nat
    /\ (forall entry,
           In entry added ->
           time entry = now
           /\ recorded (leftAt bus) (stop entry) = false
           /\ exists s,
               In s (busStops (db w))
               /\ stop_id s = stop entry
               /\ withinThreshold Draft1.THRESHOLD_DISTANCE la lo s = true)
    /\ (NoDup (map stop (leftAt bus)) -> NoDup (map stop (leftAt bus'))).
Proof.
  intros Hu.
  destruct (leftAt_after_update _ _ _ _ _ Hu)
    as (b & r & p & Hb & Hr & Hp & Hl).
  exists b.
  assert (Hnone : exists added : list LeftAt,
             findBus (db w) id = Some b
             /\ leftAt b = (leftAt b ++ added)%list
             /\ (length added <= 1)%nat
             /\ (forall entry,
                    In entry added ->
                    time entry = now
                    /\ recorded (leftAt b) (stop entry) = false
                    /\ exists s,
                        In s (busStops (db w))
                        /\ stop_id s = stop entry
                        /\ withinThreshold Draft1.THRESHOLD_DISTANCE la lo s
                           = true)
             /\ (NoDup (map stop (leftAt b)) -> NoDup (map stop (leftAt b)))).
  { exists []. rewrite app_nil_r.
    split; [exact Hb|]. split; [reflexivity|].
    split; [apply Nat.le_0_l|]. split; [intros e []|]. tauto. }
  destruct p as [s|]; cbn [Draft1.recordPassed] in Hl;
    [|rewrite Hl; exact Hnone].
  destruct (existsb (fun entry => String.eqb (stop entry) (stop_id s))
                    (leftAt b)) eqn:E; [rewrite Hl; exact Hnone|].
  exists [ {| stop := stop_id s; time := now |} ].
  split; [exact Hb|]. split; [exact Hl|].
  split; [apply Nat.le_refl|]. split.
  - intros e [He|[]]. subst e. cbn [time stop].
    split; [reflexivity|]. split; [exact E|].
    exists s. destruct (findPassedStop_some _ _ _ _ Hp)
      as (pre & post & Hss & Hw & _).
    split; [|split; [reflexivity | exact Hw]].
    assert (Hin : In s (routeStopDocs (db w) r)).
    { rewrite Hss. apply in_or_app. right. left. reflexivity. }
    unfold routeStopDocs, findStopsIn in Hin.
    apply filter_In in Hin. tauto.
  - intros Hn. rewrite Hl.
    apply (@recordPassed_NoDup (leftAt b) (Some s) now) in Hn.
    cbn [Draft1.recordPassed] in Hn. rewrite E in Hn. exact Hn.
Qed.

(** A route whose stop references name no stop document cannot be
    tracked: both revisions log [No stops found for this route] and store
    nothing, although origin, destination and total distance are in
    order. *)
Theorem route_without_stop_documents (id : ObjectId) (la lo : Q)
        (now : Date) (w : World) (bus : ScheduledBus) (r : ResolvedRoute) :
  findBus (db w) id = Some bus ->
  checkRoute (db w) bus = Ok r ->
  (forall ref, In ref (r_stops r) -> findStop (db w) (stopId ref) = None) ->
  Draft1.updateBusLocation id la lo now w
  = (Throw (Err updateFailed),
     addLine w "Error updating bus location:" noStops)
  /\ Index.updateBusLocation id la lo now w
     = (Throw (Err updateFailed),
        addLine w "Error updating bus location:" noStops).
Proof.
  intros Hb Hr Hnone.
  assert (Hs : routeStopDocs (db w) r = []).
  { unfold routeStopDocs, findStopsIn.
    destruct (filter _ (busStops (db w))) as [|s ss] eqn:Hf; [reflexivity|].
    exfalso.
    assert (Hin : In s (filter
                          (fun s => existsb (String.eqb (stop_id s))
                                            (map stopId (r_stops r)))
                          (busStops (db w)))).
    { rewrite Hf. left. reflexivity. }
    apply filter_In in Hin. destruct Hin as [Hin Hex].
    apply existsb_exists in Hex. destruct Hex as (x & Hx & Heq).
    apply in_map_iff in Hx. destruct Hx as (ref & Href & Hr').
    apply String.eqb_eq in Heq. subst x.
    specialize (Hnone ref Hr').
    unfold findStop in Hnone.
    pose proof (find_none _ _ Hnone s Hin) as Hn. cbn in Hn.
    rewrite Heq, String.eqb_refl in Hn. discriminate. }
  split.
  - unfold Draft1.updateBusLocation, Draft1.tryBlock, rethrow. unfold_eff.
    rewrite Hb, Hr, Hs. reflexivity.
  - unfold Index.updateBusLocation, Index.tryBlock, rethrow. unfold_eff.
    rewrite Hb, Hr, Hs. reflexivity.
Qed.

End WithGeo.

Lemma log_grows_by_at_most_one_witness :
  exists bus' w',
    Draft1.updateBusLocation (H := Fixture.gridGeo) "T1" (23 # 2) 77 1000%Z
                             Fixture.w0 = (Ok (Some bus'), w')
    /\ exists bus added,
        findBus (db Fixture.w0) "T1" = Some bus
        /\ leftAt bus' = (leftAt bus ++ added)%list
        /\ (length added <= 1)%nat.
Proof.
  do 2 eexists. split; [lazy; reflexivity|].
  destruct (@log_grows_by_at_most_one Fixture.gridGeo "T1" (23 # 2) 77 1000%Z
              Fixture.w0 _ _ eq_refl)
    as (bus & added & Hb & Hl & Hlen & _).
  exists bus, added. split; [exact Hb|]. split; [exact Hl | exact Hlen].
Defined.

Lemma route_without_stop_documents_witness :
  Draft1.updateBusLocation (H := Fixture.gridGeo) "TE" (23 # 2) 77 1000%Z
                           Fixture2.w1
  = (Throw (Err updateFailed),
     addLine Fixture2.w1 "Error updating bus location:" noStops).
Proof.
  apply (proj1 (@route_without_stop_documents Fixture.gridGeo
                  "TE" (23 # 2) 77 1000%Z Fixture2.w1
                  (Fixture.newTrip "TE" "RE" 6%Z)
                  {| r_origin := Fixture.stopAt "origin" 11 77;
                     r_destination := Fixture.stopAt "dest" 12 77;
                     r_stops := [ {| stopId := "gone" |} ];
                     r_totalDistance := 111 |}
                  eq_refl eq_refl
                  (fun ref Href =>
                     match Href with
                     | or_introl e =>
                         eq_ind {| stopId := "gone" |}
                                (fun x => findStop (db Fixture2.w1)
                                                   (stopId x) = None)
                                eq_refl ref e
                     | or_intror f => match f with end
                     end))).
Defined.

End StopLog.

(** ** Successive updates and rounding *)

Module Sequence.

Import JsNumber Model Eff Mongoose TimeUtils Common Paginate Server.
Import NumberFacts StoreFacts Statements Statements2 Draft1Facts Accepted.
Local Open Scope string_scope.

Lemma small_is_printed (x : Q) :
  (0 <= x)%Q -> (x <= 100)%Q ->
  toFixed2Q x = (inject_Z (hundredths x) / 100)%Q.
Proof.
  intros H0 H1. unfold toFixed2Q.
  destruct (Qle_bool (10 ^ 21) (Qabs x)) eqn:E.
  - exfalso. apply Qle_bool_iff in E. rewrite (Qabs_pos x H0) in E.
    assert (Hlt : (100 < 10 ^ 21)%Q) by reflexivity.
    apply (Qlt_irrefl 100). eapply Qlt_le_trans; [exact Hlt|].
    eapply Qle_trans; eassumption.
  - destruct (Qle_bool 0 x) eqn:E0; [reflexivity|].
    rewrite <- Qle_bool_iff in H0. congruence.
Qed.

Lemma zero_is_printed_zero (x : Q) : (x == 0)%Q -> (toFixed2Q x == 0)%Q.
Proof.
  intros Hx.
  rewrite small_is_printed; [|rewrite Hx; discriminate..].
  unfold hundredths.
  assert (Hf : Qfloor (x * 100 + (1 # 2)) = Qfloor (1 # 2)).
  { apply Qfloor_comp. rewrite Hx. reflexivity. }
  rewrite Hf. reflexivity.
Qed.

Section WithGeo.

Context `{Geo}.

(** Two accepted updates of one trip in a row: the second derives its
    speed from the fix that the first stored, as the distance between the
    two fixes over the time between them; when its time is not later it
    keeps the speed that was stored.  Either way it stores the second
    fix. *)
Theorem second_update_uses_first_fix (id : ObjectId) (la1 lo1 la2 lo2 : Q)
        (t1 t2 : Date) (w w1 w2 : World) (b1 b2 : ScheduledBus) :
  Draft1.updateBusLocation id la1 lo1 t1 w = (Ok (Some b1), w1) ->
  Draft1.updateBusLocation id la2 lo2 t2 w1 = (Ok (Some b2), w2) ->
  ((t1 < t2)%Z ->
   option_map Num (speed b2)
   = Some (div (haversineDistance (Num la1) (Num lo1) (Num la2) (Num lo2))
               (Num (inject_Z (t2 - t1) / msPerHour))))
  /\ ((t2 <= t1)%Z -> speed b2 = speed b1)
  /\ location b2 = {| latitude := Some la2; longitude := Some lo2;
                      lastUpdated := Some t2 |}.
Proof.
  intros Hu1 Hu2.
  pose proof Hu1 as Hstored. apply stored_after_update in Hstored.
  apply accepted_shape in Hu1.
  destruct Hu1 as (b & r & o & dst & p & dt & dr & jc & sp & _ & _ & _ & _
                   & _ & _ & _ & _ & _ & Hres1 & _).
  injection Hres1 as Hb1.
  assert (Hloc : location b1 = {| latitude := Some la1; longitude := Some lo1;
                                  lastUpdated := Some t1 |}).
  { rewrite Hb1. reflexivity. }
  apply accepted_shape in Hu2.
  destruct Hu2 as (b' & r' & o' & dst' & p' & dt' & dr' & jc' & sp' & Hb' & _
                   & _ & _ & _ & _ & _ & _ & Hsp & Hres2 & _).
  rewrite Hstored in Hb'. injection Hb' as Hb'. subst b'.
  injection Hres2 as Hb2.
  cbn [fieldsFor updateFields set_speed] in Hsp. rewrite Hloc in Hsp.
  cbn [latitude longitude lastUpdated] in Hsp.
  split; [|split].
  - intros Hlt. rewrite (@Speed.calculateSpeed_present _ la1 lo1 t1 la2 lo2 t2 Hlt) in Hsp.
    cbn [castOptional] in Hsp.
    destruct (div _ _) as [|q]; cbn in Hsp; [discriminate|].
    injection Hsp as Hsp. subst sp'. rewrite Hb2. reflexivity.
  - intros Hle.
    assert (Hn : calculateSpeed (Some la1) (Some lo1) (Some t1) la2 lo2 t2
                 = None).
    { apply Speed.calculateSpeed_absent. right. right. right.
      exists t1. split; [reflexivity | exact Hle]. }
    rewrite Hn in Hsp. cbn in Hsp. injection Hsp as Hsp. subst sp'.
    rewrite Hb2. reflexivity.
  - rewrite Hb2. reflexivity.
Qed.

(** The completion that an accepted update stores has two decimals: it is
    a whole number of hundredths between 0 and 10000. *)
Theorem stored_completion_in_hundredths (id : ObjectId) (la lo : Q)
        (now : Date) (w w' : World) (bus' : ScheduledBus) :
  Draft1.updateBusLocation id la lo now w = (Ok (Some bus'), w') ->
  exists n : Z,
    (0 <= n <= 10000)%Z
    /\ journeyCompletion bus' = Some (inject_Z n / 100)%Q.
Proof.
  intros Hu. apply accepted_shape in Hu.
  destruct Hu as (b & r & o & dst & p & dt & dr & jc & sp & _ & _ & _ & _
                  & _ & _ & _ & Hjc & _ & Hres & _).
  injection Hres as Hb. cbn [fieldsFor updateFields set_journeyCompletion] in Hjc.
  set (raw := mul (div (haversineDistance (fst o) (snd o) (Num la) (Num lo))
                       (Num (r_totalDistance r))) (Num 100)) in Hjc.
  destruct (isNaN raw) eqn:En.
  { pose proof (@clamp_NaN raw (Num 0) En) as Hc.
    destruct (max (Num 0) (min raw (Num 100))); [discriminate Hjc | discriminate Hc]. }
  pose proof (@clamp_between raw En) as Hc.
  destruct (max (Num 0) (min raw (Num 100))) as [|x]; [destruct Hc|].
  cbn [toFixed2] in Hjc. injection Hjc as Hjc. destruct Hc as [H0 H1].
  rewrite (@small_is_printed x H0 H1) in Hjc.
  exists (hundredths x). split.
  - split; [apply (@hundredths_nonneg x H0)|].
    apply (@hundredths_upper x 100 H1).
  - rewrite Hb. cbn [applyUpdate journeyCompletion]. rewrite Hjc. reflexivity.
Qed.

(** The guard lets a negative [totalDistance] through.  With a distance
    function that is never negative, every accepted update of a trip on
    such a route stores a completion of zero, wherever the vehicle is. *)
Theorem negative_total_distance_gives_zero (id : ObjectId) (la lo : Q)
        (now : Date) (w w' : World) (bus bus' : ScheduledBus)
        (r : ResolvedRoute) :
  distanceNonNegative ->
  findBus (db w) id = Some bus ->
  checkRoute (db w) bus = Ok r ->
  (r_totalDistance r < 0)%Q ->
  Draft1.updateBusLocation id la lo now w = (Ok (Some bus'), w') ->
  exists c, journeyCompletion bus' = Some c /\ (c == 0)%Q.
Proof.
  intros Hnn Hbus Hr Hneg Hu. apply accepted_shape in Hu.
  destruct Hu as (b & r' & o & dst & p & dt & dr & jc & sp & Hb & Hr' & _ & _
                  & _ & _ & _ & Hjc & _ & Hres & _).
  rewrite Hbus in Hb. injection Hb as Hb. subst b.
  rewrite Hr in Hr'. injection Hr' as Hr'. subst r'.
  injection Hres as Hb'.
  exists jc. split; [rewrite Hb'; reflexivity|].
  cbn [fieldsFor updateFields set_journeyCompletion] in Hjc.
  destruct (haversineDistance (fst o) (snd o) (Num la) (Num lo))
    as [|d] eqn:Hd; [discriminate Hjc|].
  pose proof (Hnn _ _ _ _ _ Hd) as Hd0.
  cbn [div] in Hjc.
  destruct (Qeq_bool (r_totalDistance r) 0); [discriminate Hjc|].
  cbn [mul min max toFixed2] in Hjc. injection Hjc as Hjc.
  set (x := (d / r_totalDistance r * 100)%Q) in Hjc.
  assert (Hx : (x <= 0)%Q).
  { unfold x. unfold Qdiv.
    assert (Hinv : (/ r_totalDistance r < 0)%Q).
    { destruct (r_totalDistance r) as [[|n|n] dn]; cbn in *;
        try discriminate; try (unfold Qlt in Hneg; cbn in Hneg; lia).
      reflexivity. }
    nra. }
  assert (E1 : Qle_bool x 100 = true).
  { apply Qle_bool_iff. eapply Qle_trans; [exact Hx | discriminate]. }
  rewrite E1 in Hjc. rewrite <- Hjc.
  apply zero_is_printed_zero.
  destruct (Qle_bool 0 x) eqn:E0; [|reflexivity].
  apply Qle_bool_iff in E0. apply Qle_antisym; assumption.
Qed.

End WithGeo.

Lemma grid_distance_non_negative : @distanceNonNegative Fixture.gridGeo.
Proof.
  intros a b c d q. cbn. unfold Fixture.gridDistance.
  destruct a as [|x1], b as [|y1], c as [|x2], d as [|y2]; try discriminate.
  intros Hq. injection Hq as Hq. subst q.
  apply Qmult_le_0_compat; [discriminate|].
  exact (Qplus_le_compat 0 _ 0 _ (Qabs_nonneg (x1 - x2))
                         (Qabs_nonneg (y1 - y2))).
Qed.

Lemma second_update_uses_first_fix_witness :
  exists b1 w1 b2 w2,
    Draft1.updateBusLocation (H := Fixture.gridGeo) "T1" 11 77 1000%Z
                             Fixture.w0 = (Ok (Some b1), w1)
    /\ Draft1.updateBusLocation (H := Fixture.gridGeo) "T1" (23 # 2) 77
                                3601000%Z w1 = (Ok (Some b2), w2)
    /\ option_map Num (speed b2)
       = Some (div (Fixture.gridDistance (Num 11) (Num 77) (Num (23 # 2))
                                         (Num 77))
                   (Num (inject_Z (3601000 - 1000) / msPerHour))).
Proof.
  do 4 eexists. split; [lazy; reflexivity|]. split; [lazy; reflexivity|].
  refine (proj1 (@second_update_uses_first_fix Fixture.gridGeo "T1" 11 77
                   (23 # 2) 77 1000%Z 3601000%Z Fixture.w0 _ _ _ _
                   eq_refl eq_refl) _).
  reflexivity.
Defined.

Lemma stored_completion_in_hundredths_witness :
  exists bus' w' n,
    Draft1.updateBusLocation (H := Fixture.gridGeo) "T1" (23 # 2) 77 1000%Z
                             Fixture.w0 = (Ok (Some bus'), w')
    /\ (0 <= n <= 10000)%Z
    /\ journeyCompletion bus' = Some (inject_Z n / 100)%Q.
Proof.
  destruct (@stored_completion_in_hundredths Fixture.gridGeo "T1" (23 # 2) 77
              1000%Z Fixture.w0 _ _ eq_refl) as (n & Hn & Hjc).
  do 3 eexists. split; [reflexivity|]. split; [exact Hn | exact Hjc].
Defined.

Lemma negative_total_distance_gives_zero_witness :
  exists bus' w' c,
    Draft1.updateBusLocation (H := Fixture.gridGeo) "TN" (23 # 2) 77 1000%Z
                             Fixture2.w1 = (Ok (Some bus'), w')
    /\ journeyCompletion bus' = Some c /\ (c == 0)%Q.
Proof.
  destruct (@negative_total_distance_gives_zero Fixture.gridGeo
              "TN" (23 # 2) 77 1000%Z Fixture2.w1 _
              (Fixture.newTrip "TN" "RN" 4%Z) _
              {| r_origin := Fixture.stopAt "origin" 11 77;
                 r_destination := Fixture.stopAt "dest" 12 77;
                 r_stops := [ {| stopId := "origin" |}; {| stopId := "dest" |} ];
                 r_totalDistance := -111 |}
              grid_distance_non_negative eq_refl eq_refl eq_refl eq_refl)
    as (c & Hc & H0).
  do 3 eexists. split; [reflexivity|]. split; [exact Hc | exact H0].
Defined.

End Sequence.

(** ** The revision without stop passage *)

Module Draft4Facts.

Import JsNumber Model Eff Mongoose TimeUtils Common Paginate Server.
Import NumberFacts StoreFacts Statements Statements2 Draft1Facts Accepted.
Local Open Scope string_scope.

Lemma findByIdAndUpdate_accepted (id : ObjectId) (f : UpdateFields)
      (push : list LeftAt) (w w' : World) (res : option ScheduledBus) :
  findByIdAndUpdate id f push w = (Ok res, w') -> writeAccepted w = true.
Proof.
  unfold findByIdAndUpdate. unfold_eff.
  destruct (castNumber _ (set_distanceTraveled f)); [|discriminate].
  destruct (castNumber _ (set_distanceRemaining f)); [|discriminate].
  destruct (castNumber _ (set_journeyCompletion f)); [|discriminate].
  destruct (castOptional _ (set_speed f)); [|discriminate].
  destruct (writeAccepted w); [reflexivity | discriminate].
Qed.

Lemma findByIdAndUpdate_run (id : ObjectId) (f : UpdateFields)
      (push : list LeftAt) (w : World) (doc : ScheduledBus) (dt dr jc : Q)
      (sp : option Q) :
  set_distanceTraveled f = Num dt ->
  set_distanceRemaining f = Num dr ->
  set_journeyCompletion f = Num jc ->
  castOptional "speed" (set_speed f) = Ok sp ->
  writeAccepted w = true ->
  findBus (db w) id = Some doc ->
  findByIdAndUpdate id f push w
  = (Ok (Some (applyUpdate f dt dr jc sp push doc)),
     withDb w (withBuses (db w)
                 (replaceById id (applyUpdate f dt dr jc sp push doc)
                              (scheduledBuses (db w))))).
Proof.
  intros Hdt Hdr Hjc Hsp Hw Hb. unfold findByIdAndUpdate. unfold_eff.
  rewrite Hdt, Hdr, Hjc. cbn [castNumber]. rewrite Hsp, Hw. cbn [negb].
  rewrite Hb. reflexivity.
Qed.

(** The guard of the revision that fetches origin and destination itself
    asks for less than the guard on the populated route. *)
Lemma checkRoute_refs (d : DB) (bus : ScheduledBus) (r : ResolvedRoute) :
  checkRoute d bus = Ok r ->
  exists o dst,
    Draft4.checkRouteRefs d bus
    = Ok {| Draft4.ref_origin := o; Draft4.ref_destination := dst;
            Draft4.ref_totalDistance := r_totalDistance r |}
    /\ findStop d o = Some (r_origin r)
    /\ findStop d dst = Some (r_destination r).
Proof.
  unfold checkRoute, Draft4.checkRouteRefs.
  destruct (findRoute d (Model.route bus)) as [route|]; [|discriminate].
  destruct (origin route) as [o|]; cbn [populateStop]; [|discriminate].
  destruct (findStop d o) as [os|] eqn:Ho; [|discriminate].
  destruct (destination route) as [dst|]; cbn [populateStop];
    [|discriminate].
  destruct (findStop d dst) as [ds|] eqn:Hd; [|discriminate].
  destruct (stops route); [|discriminate].
  destruct (totalDistance route) as [t|]; [|discriminate].
  destruct (truthy (Some t)); [|discriminate].
  intros Hr. injection Hr as Hr. subst r. cbn.
  exists o, dst. repeat split; assumption.
Qed.

Section WithGeo.

Context `{Geo}.

(** A run either threw before the store call or is the store call. *)
Lemma tryBlock4_cases (id : ObjectId) (la lo : Q) (now : Date) (w : World) :
  (exists e, Draft4.tryBlock id la lo now w = (Throw e, w))
  \/ exists bus refs o dst,
      findBus (db w) id = Some bus
      /\ Draft4.checkRouteRefs (db w) bus = Ok refs
      /\ Draft4.tryBlock id la lo now w
         = findByIdAndUpdate id
             (updateFields (fst o) (snd o) (fst dst) (snd dst)
                           (Draft4.ref_totalDistance refs) (location bus)
                           la lo now None) [] w.
Proof.
  unfold Draft4.tryBlock. unfold_eff.
  destruct (findBus (db w) id) as [b|] eqn:Hb;
    [|left; eexists; reflexivity].
  destruct (Draft4.checkRouteRefs (db w) b) as [refs|e] eqn:Hr;
    [|left; eexists; reflexivity].
  destruct (findStop (db w) (Draft4.ref_origin refs)) as [os|];
    [|left; eexists; reflexivity].
  destruct (findStop (db w) (Draft4.ref_destination refs)) as [ds|];
    [|left; eexists; reflexivity].
  destruct (Draft1.readCoordinates os) as [o|e];
    [|left; eexists; reflexivity].
  destruct (Draft1.readCoordinates ds) as [dst|e];
    [|left; eexists; reflexivity].
  right. exists b, refs, o, dst. repeat split; reflexivity || assumption.
Qed.

(** An accepted update of the revision without stop passage returns the
    updated trip and stores it with the log it had: [leftAt] is never
    written.  The completion it stores is in [0, 100], the remaining
    distance is not negative, the new fix is stored, and every other trip
    is left alone. *)
Theorem update_without_stop_passage (id : ObjectId) (la lo : Q) (now : Date)
        (w w' : World) (res : option ScheduledBus) :
  Draft4.updateBusLocation id la lo now w = (Ok res, w') ->
  exists bus bus' c r,
    res = Some bus'
    /\ findBus (db w) id = Some bus
    /\ findBus (db w') id = Some bus'
    /\ leftAt bus' = leftAt bus
    /\ location bus' = {| latitude := Some la; longitude := Some lo;
                          lastUpdated := Some now |}
    /\ journeyCompletion bus' = Some c /\ (0 <= c /\ c <= 100)%Q
    /\ distanceRemaining bus' = Some r /\ (0 <= r)%Q
    /\ forall other, other <> id -> findBus (db w') other = findBus (db w) other.
Proof.
  unfold Draft4.updateBusLocation, tryCatch.
  destruct (tryBlock4_cases id la lo now w) as [[e He]|Hc].
  { rewrite He. unfold rethrow. unfold_eff. discriminate. }
  destruct Hc as (b & refs & o & dst & Hb & _ & Ht). rewrite Ht.
  set (f := updateFields (fst o) (snd o) (fst dst) (snd dst)
                         (Draft4.ref_totalDistance refs) (location b)
                         la lo now None).
  destruct (findByIdAndUpdate id f [] w) as [[res0|e] w0] eqn:Hu;
    [|unfold rethrow; unfold_eff; discriminate].
  intros Heq. injection Heq as Hres Hw. subst res0 w0.
  destruct res as [bus'|];
    [|apply findByIdAndUpdate_null in Hu; congruence].
  apply findByIdAndUpdate_ok in Hu.
  destruct Hu as (doc & dt & dr & jc & sp & Hdoc & _ & Hdr & Hjc & _ & Hbus
                  & Hw).
  rewrite Hb in Hdoc. injection Hdoc as Hdoc. subst doc.
  assert (Hid : bus_id bus' = id).
  { rewrite Hbus. cbn [applyUpdate bus_id]. eapply find_bus_id, Hb. }
  destruct (Progress.updateFields_bounds (fst o) (snd o) (fst dst) (snd dst)
              (Draft4.ref_totalDistance refs) (location b) la lo now None)
    as [Hc Hr].
  fold f in Hc, Hr. rewrite Hjc in Hc. rewrite Hdr in Hr. cbn in Hc, Hr.
  destruct Hc as [Hc|Hc]; [discriminate|].
  destruct Hr as [Hr|Hr]; [discriminate|].
  exists b, bus', jc, dr.
  split; [reflexivity|]. split; [exact Hb|].
  split.
  { rewrite Hw. cbn [withDb db]. unfold findBus, withBuses.
    cbn [scheduledBuses]. eapply find_replaceById; eassumption. }
  split; [rewrite Hbus; cbn; apply app_nil_r|].
  split; [rewrite Hbus; reflexivity|].
  split; [rewrite Hbus; reflexivity|]. split; [exact Hc|].
  split; [rewrite Hbus; reflexivity|]. split; [exact Hr|].
  intros other Hne. rewrite Hw. cbn [withDb db]. unfold findBus, withBuses.
  cbn [scheduledBuses]. apply find_replaceById_other; assumption.
Qed.

(** Whatever the revision with stop passage accepts, the revision without
    it accepts too, and the two store the same trip up to the log: same
    location, distances, completion and speed, with [leftAt] as it was
    before the update. *)
Theorem revisions_agree_up_to_log (id : ObjectId) (la lo : Q) (now : Date)
        (w w1 : World) (b1 : ScheduledBus) :
  Draft1.updateBusLocation id la lo now w = (Ok (Some b1), w1) ->
  exists b4 w4 bus,
    Draft4.updateBusLocation id la lo now w = (Ok (Some b4), w4)
    /\ sameButLeftAt b4 b1
    /\ findBus (db w) id = Some bus
    /\ leftAt b4 = leftAt bus.
Proof.
  intros Hu.
  pose proof Hu as Hok. apply updateBusLocation_ok, tryBlock_ok in Hok.
  destruct Hok as (b0 & r0 & o0 & dst0 & p0 & _ & _ & _ & _ & _ & _ & Hwr).
  apply findByIdAndUpdate_accepted in Hwr.
  apply accepted_shape in Hu.
  destruct Hu as (b & r & o & dst & p & dt & dr & jc & sp & Hb & Hr & Ho & Hd
                  & _ & Hdt & Hdr & Hjc & Hsp & Hres & _).
  injection Hres as Hb1.
  destruct (checkRoute_refs _ _ Hr) as (oref & dref & Hrefs & Hfo & Hfd).
  set (f4 := updateFields (fst o) (snd o) (fst dst) (snd dst)
                          (r_totalDistance r) (location b) la lo now None).
  assert (Hrun : Draft4.tryBlock id la lo now w
                 = findByIdAndUpdate id f4 [] w).
  { unfold Draft4.tryBlock. unfold_eff. rewrite Hb, Hrefs.
    cbn [Draft4.ref_origin Draft4.ref_destination Draft4.ref_totalDistance].
    rewrite Hfo, Hfd, Ho, Hd. reflexivity. }
  assert (Hu4 := @findByIdAndUpdate_run id f4 [] w b dt dr jc sp
                   Hdt Hdr Hjc Hsp Hwr Hb).
  do 2 eexists. exists b.
  split.
  { unfold Draft4.updateBusLocation, tryCatch. rewrite Hrun, Hu4.
    reflexivity. }
  split; [|split; [exact Hb | cbn; apply app_nil_r]].
  rewrite Hb1. unfold sameButLeftAt. cbn. repeat split; reflexivity.
Qed.

End WithGeo.

Lemma update_without_stop_passage_witness :
  exists res w',
    Draft4.updateBusLocation (H := Fixture.gridGeo) "T1" (23 # 2) 77 1000%Z
                             Fixture.w0 = (Ok res, w')
    /\ exists bus', res = Some bus' /\ leftAt bus' = [].
Proof.
  do 2 eexists. split; [lazy; reflexivity|].
  destruct (@update_without_stop_passage Fixture.gridGeo "T1" (23 # 2) 77
              1000%Z Fixture.w0 _ _ eq_refl)
    as (bus & bus' & c & r & Hres & Hb & _ & Hl & _).
  exists bus'. split; [exact Hres|].
  rewrite Hl. lazy in Hb. injection Hb as Hb. subst bus. reflexivity.
Defined.

Lemma revisions_agree_up_to_log_witness :
  exists b1 w1 b4 w4,
    Draft1.updateBusLocation (H := Fixture.gridGeo) "T1" (23 # 2) 77 1000%Z
                             Fixture.w0 = (Ok (Some b1), w1)
    /\ Draft4.updateBusLocation (H := Fixture.gridGeo) "T1" (23 # 2) 77 1000%Z
                                Fixture.w0 = (Ok (Some b4), w4)
    /\ sameButLeftAt b4 b1.
Proof.
  destruct (@revisions_agree_up_to_log Fixture.gridGeo "T1" (23 # 2) 77
              1000%Z Fixture.w0 _ _ eq_refl)
    as (b4 & w4 & bus & Hu4 & Hs & _).
  do 2 eexists. exists b4, w4.
  split; [reflexivity|]. split; [exact Hu4 | exact Hs].
Defined.

End Draft4Facts.

(** ** The revision that adds up the distance between fixes *)

Module Draft2Facts.

Import JsNumber Model Eff Mongoose TimeUtils Common Paginate Server.
Import NumberFacts StoreFacts Statements Statements2 Accepted Sequence.
Local Open Scope string_scope.

Lemma zeroIf_number (x : num) :
  exists r, Draft2.zeroIfNaNOrNegative x = Num r /\ (0 <= r)%Q.
Proof.
  unfold Draft2.zeroIfNaNOrNegative. destruct x as [|q]; cbn.
  - exists 0%Q. split; [reflexivity | discriminate].
  - destruct (Qle_bool 0 q) eqn:E; cbn.
    + exists q. split; [reflexivity | apply Qle_bool_iff, E].
    + exists 0%Q. split; [reflexivity | discriminate].
Qed.

Lemma zeroIf_keeps (q : Q) :
  (0 <= q)%Q -> Draft2.zeroIfNaNOrNegative (Num q) = Num q.
Proof.
  intros Hq. unfold Draft2.zeroIfNaNOrNegative. cbn.
  apply Qle_bool_iff in Hq. rewrite Hq. reflexivity.
Qed.

Lemma share_of_total (a r : Q) :
  (0 <= a)%Q -> (0 <= r)%Q -> ~ (a + r == 0)%Q ->
  (0 <= a / (a + r) * 100)%Q /\ (a / (a + r) * 100 <= 100)%Q.
Proof.
  intros Ha Hr Hne.
  assert (Hpos : (0 < a + r)%Q).
  { destruct (Qlt_le_dec 0 (a + r)) as [Hlt|Hle]; [exact Hlt|].
    exfalso. apply Hne. apply Qle_antisym; [exact Hle | nra]. }
  assert (H0 : (0 <= a / (a + r))%Q).
  { apply Qle_shift_div_l; [exact Hpos | nra]. }
  assert (H1 : (a / (a + r) <= 1)%Q).
  { apply Qle_shift_div_r; [exact Hpos | nra]. }
  split; nra.
Qed.

Section WithGeo.

Context `{Geo}.

(** A run that returned went through the guards and ended in the store
    call, after one console line. *)
Lemma accepted_shape2 (id : ObjectId) (la lo : Q) (now : Date) (w w' : World)
      (res : option ScheduledBus) :
  Draft2.updateBusLocation id la lo now w = (Ok res, w') ->
  exists bus dref dst,
    findBus (db w) id = Some bus
    /\ Draft2.checkRouteEnds (db w) bus = Ok dref
    /\ Draft2.requireDestination (findStop (db w) dref) = Ok dst
    /\ findByIdAndUpdate id
         (Draft2.updateFields2 bus (fst dst) (snd dst) la lo now) []
         (addLine w "completionPercentage" "")
       = (Ok res, w').
Proof.
  unfold Draft2.updateBusLocation, Draft2.tryBlock, rethrow. unfold_eff.
  destruct (findBus (db w) id) as [b|] eqn:Hb; [|discriminate].
  destruct (Draft2.checkRouteEnds (db w) b) as [dref|e] eqn:Hr;
    [|discriminate].
  destruct (Draft2.requireDestination (findStop (db w) dref)) as [dst|e]
    eqn:Hd; [|discriminate].
  destruct (findByIdAndUpdate id _ [] _) as [[res0|e] w0] eqn:Hu;
    [|discriminate].
  intros Heq. injection Heq as Hres Hw. subst res0 w0.
  exists b, dref, dst. repeat split; assumption.
Qed.

Lemma stored2 (id : ObjectId) (la lo : Q) (now : Date) (w w' : World)
      (bus' : ScheduledBus) :
  Draft2.updateBusLocation id la lo now w = (Ok (Some bus'), w') ->
  exists bus dst dt dr jc sp,
    findBus (db w) id = Some bus
    /\ set_distanceTraveled
         (Draft2.updateFields2 bus (fst dst) (snd dst) la lo now) = Num dt
    /\ set_distanceRemaining
         (Draft2.updateFields2 bus (fst dst) (snd dst) la lo now) = Num dr
    /\ set_journeyCompletion
         (Draft2.updateFields2 bus (fst dst) (snd dst) la lo now) = Num jc
    /\ bus' = applyUpdate
                (Draft2.updateFields2 bus (fst dst) (snd dst) la lo now)
                dt dr jc sp [] bus
    /\ findBus (db w') id = Some bus'
    /\ castOptional "speed"
         (set_speed (Draft2.updateFields2 bus (fst dst) (snd dst) la lo now))
       = Ok sp.
Proof.
  intros Hu. apply accepted_shape2 in Hu.
  destruct Hu as (b & dref & dst & Hb & _ & _ & Hu).
  apply findByIdAndUpdate_ok in Hu. cbn [addLine db] in Hu.
  destruct Hu as (doc & dt & dr & jc & sp & Hdoc & Hdt & Hdr & Hjc & Hsp & Hbus
                  & Hw).
  rewrite Hb in Hdoc. injection Hdoc as Hdoc. subst doc.
  exists b, dst, dt, dr, jc, sp. repeat split; try assumption.
  assert (Hid : bus_id bus' = id).
  { rewrite Hbus. cbn [applyUpdate bus_id]. eapply find_bus_id, Hb. }
  rewrite Hw. cbn [withDb db]. unfold findBus, withBuses.
  cbn [scheduledBuses]. eapply find_replaceById; eassumption.
Qed.

(** The distance never adds up.  What an accepted update stores as
    [distanceTraveled] is the distance from the stored fix to the new one
    (zero when there is no stored fix to start from), printed with two
    decimals; the distance stored before does not enter.  After two
    accepted updates the stored distance is that of the second hop
    alone. *)
Theorem distance_is_last_hop_only :
  (forall id la lo now w w' bus',
      Draft2.updateBusLocation id la lo now w = (Ok (Some bus'), w') ->
      exists bus,
        findBus (db w) id = Some bus
        /\ option_map Num (distanceTraveled bus')
           = Some (toFixed2
                     (Draft2.add (Num 0)
                        (Draft2.distanceIncrement (location bus) la lo))))
  /\ (forall id la1 lo1 t1 la2 lo2 t2 w w1 w2 b1 b2,
         ~ (la1 == 0)%Q -> ~ (lo1 == 0)%Q ->
         Draft2.updateBusLocation id la1 lo1 t1 w = (Ok (Some b1), w1) ->
         Draft2.updateBusLocation id la2 lo2 t2 w1 = (Ok (Some b2), w2) ->
         option_map Num (distanceTraveled b2)
         = Some (toFixed2
                   (Draft2.add (Num 0)
                      (haversineDistance (Num la1) (Num lo1)
                                         (Num la2) (Num lo2))))).
Proof.
  assert (Hone : forall id la lo now w w' bus',
             Draft2.updateBusLocation id la lo now w = (Ok (Some bus'), w') ->
             exists bus,
               findBus (db w) id = Some bus
               /\ location bus' = {| latitude := Some la; longitude := Some lo;
                                     lastUpdated := Some now |}
               /\ findBus (db w') id = Some bus'
               /\ option_map Num (distanceTraveled bus')
                  = Some (toFixed2
                            (Draft2.add (Num 0)
                               (Draft2.distanceIncrement (location bus)
                                                         la lo)))).
  { intros id la lo now w w' bus' Hu. apply stored2 in Hu.
    destruct Hu as (b & dst & dt & dr & jc & sp & Hb & Hdt & _ & _ & Hbus
                    & Hst & _).
    exists b. split; [exact Hb|].
    split; [rewrite Hbus; reflexivity|]. split; [exact Hst|].
    rewrite Hbus. cbn [applyUpdate distanceTraveled option_map].
    rewrite <- Hdt. reflexivity. }
  split.
  - intros id la lo now w w' bus' Hu.
    destruct (Hone _ _ _ _ _ _ _ Hu) as (b & Hb & _ & _ & Hd).
    exists b. split; assumption.
  - intros id la1 lo1 t1 la2 lo2 t2 w w1 w2 b1 b2 Hla Hlo Hu1 Hu2.
    destruct (Hone _ _ _ _ _ _ _ Hu1) as (b & _ & Hloc & Hst & _).
    destruct (Hone _ _ _ _ _ _ _ Hu2) as (b' & Hb' & _ & _ & Hd).
    rewrite Hst in Hb'. injection Hb' as Hb'. subst b'.
    rewrite Hd, Hloc. unfold Draft2.distanceIncrement.
    cbn [latitude longitude truthy].
    assert (E1 : Qeq_bool la1 0 = false).
    { destruct (Qeq_bool la1 0) eqn:E; [|reflexivity].
      apply Qeq_bool_iff in E. contradiction. }
    assert (E2 : Qeq_bool lo1 0 = false).
    { destruct (Qeq_bool lo1 0) eqn:E; [|reflexivity].
      apply Qeq_bool_iff in E. contradiction. }
    rewrite E1, E2. reflexivity.
Qed.

(** This revision does not cap the completion, yet with a distance
    function that is never negative what it stores is in range all the
    same: completion in [0, 100], remaining distance and distance
    travelled not negative. *)
Theorem uncapped_completion_in_range (id : ObjectId) (la lo : Q) (now : Date)
        (w w' : World) (bus' : ScheduledBus) :
  distanceNonNegative ->
  Draft2.updateBusLocation id la lo now w = (Ok (Some bus'), w') ->
  exists c r t,
    journeyCompletion bus' = Some c /\ (0 <= c /\ c <= 100)%Q
    /\ distanceRemaining bus' = Some r /\ (0 <= r)%Q
    /\ distanceTraveled bus' = Some t /\ (0 <= t)%Q.
Proof.
  intros Hnn Hu. apply stored2 in Hu.
  destruct Hu as (b & dst & dt & dr & jc & sp & Hb & Hdt & Hdr & Hjc & Hbus
                  & _ & _).
  exists jc, dr, dt. rewrite Hbus.
  cbn [applyUpdate journeyCompletion distanceRemaining distanceTraveled].
  cbn [Draft2.updateFields2 set_distanceTraveled set_distanceRemaining
       set_journeyCompletion Draft2.distanceTravelled] in Hdt, Hdr, Hjc.
  unfold Draft2.distanceTravelled in Hdt, Hjc.
  assert (Hinc : exists i, Draft2.distanceIncrement (location b) la lo = Num i
                           /\ (0 <= i)%Q).
  { destruct (Draft2.distanceIncrement (location b) la lo) as [|i] eqn:Hi;
      [discriminate Hdt|].
    exists i. split; [reflexivity|].
    unfold Draft2.distanceIncrement in Hi.
    destruct (latitude (location b)) as [pl|];
      [|injection Hi as Hi; subst i; discriminate].
    destruct (longitude (location b)) as [pg|];
      [|injection Hi as Hi; subst i; discriminate].
    destruct (truthy (Some pl) && truthy (Some pg));
      [|injection Hi as Hi; subst i; discriminate].
    eapply Hnn, Hi. }
  destruct Hinc as (i & Hi & Hi0). rewrite Hi in Hdt, Hjc.
  destruct (zeroIf_number
              (haversineDistance (Num la) (Num lo) (Num (fst dst))
                                 (Num (snd dst)))) as (r & Hr & Hr0).
  rewrite Hr in Hdr, Hjc.
  cbn [Draft2.add toFixed2] in Hdt, Hdr, Hjc.
  injection Hdt as Hdt. injection Hdr as Hdr.
  assert (Ha : (0 <= 0 + i)%Q) by nra.
  assert (Hc : exists c, Draft2.zeroIfNaNOrNegative
                           (Draft2.rawCompletion (Num (0 + i)) (Num r))
                         = Num c /\ (0 <= c /\ c <= 100)%Q).
  { unfold Draft2.rawCompletion. cbn [Draft2.add div].
    destruct (Qeq_bool (0 + i + r) 0) eqn:E.
    - exists 0%Q. split; [reflexivity|]. split; discriminate.
    - assert (Hne : ~ (0 + i + r == 0)%Q).
      { intros Heq. apply Qeq_bool_iff in Heq. congruence. }
      destruct (share_of_total Ha Hr0 Hne) as [H0 H1].
      cbn [mul]. rewrite (zeroIf_keeps H0).
      eexists. split; [reflexivity|]. split; assumption. }
  destruct Hc as (c & Hc & Hc0 & Hc1). rewrite Hc in Hjc.
  cbn [toFixed2] in Hjc. injection Hjc as Hjc.
  subst dt dr jc.
  split; [reflexivity|].
  split; [split; [apply toFixed2Q_nonneg | apply toFixed2Q_le_100];
          assumption|].
  split; [reflexivity|]. split; [apply toFixed2Q_nonneg, Hr0|].
  split; [reflexivity | apply toFixed2Q_nonneg, Ha].
Qed.

(** The first report of a trip, which has no stored fix, stores a
    travelled distance of zero and a completion of zero wherever the
    vehicle is. *)
Theorem first_report_stores_zero (id : ObjectId) (la lo : Q) (now : Date)
        (w w' : World) (bus bus' : ScheduledBus) :
  findBus (db w) id = Some bus ->
  latitude (location bus) = None \/ longitude (location bus) = None ->
  Draft2.updateBusLocation id la lo now w = (Ok (Some bus'), w') ->
  exists t c,
    distanceTraveled bus' = Some t /\ (t == 0)%Q
    /\ journeyCompletion bus' = Some c /\ (c == 0)%Q
    /\ speed bus' = speed bus.
Proof.
  intros Hbus Hnone Hu. apply stored2 in Hu.
  destruct Hu as (b & dst & dt & dr & jc & sp & Hb & Hdt & Hdr & Hjc & Hb'
                  & _ & Hcast).
  rewrite Hbus in Hb. injection Hb as Hb. subst b.
  assert (Hinc : Draft2.distanceIncrement (location bus) la lo = Num 0).
  { unfold Draft2.distanceIncrement.
    destruct Hnone as [Hn|Hn]; rewrite Hn; [reflexivity|].
    destruct (latitude (location bus)); reflexivity. }
  assert (Hsp : set_speed (Draft2.updateFields2 bus (fst dst) (snd dst)
                                                la lo now) = None).
  { cbn [Draft2.updateFields2 set_speed].
    apply Speed.calculateSpeed_absent. tauto. }
  cbn [Draft2.updateFields2 set_distanceTraveled set_journeyCompletion
       Draft2.distanceTravelled] in Hdt, Hjc.
  unfold Draft2.distanceTravelled in Hdt, Hjc.
  rewrite Hinc in Hdt, Hjc.
  destruct (zeroIf_number
              (haversineDistance (Num la) (Num lo) (Num (fst dst))
                                 (Num (snd dst)))) as (r & Hr & Hr0).
  rewrite Hr in Hjc. cbn [Draft2.add toFixed2] in Hdt, Hjc.
  injection Hdt as Hdt.
  exists dt, jc. rewrite Hb'.
  cbn [applyUpdate distanceTraveled journeyCompletion speed].
  split; [reflexivity|]. split; [rewrite <- Hdt; reflexivity|].
  split; [reflexivity|]. split.
  - unfold Draft2.rawCompletion in Hjc. cbn [Draft2.add div] in Hjc.
    destruct (Qeq_bool (0 + 0 + r) 0).
    + cbn in Hjc. injection Hjc as Hjc. rewrite <- Hjc. reflexivity.
    + cbn [mul] in Hjc.
      assert (Hz : ((0 + 0) / (0 + 0 + r) * 100 == 0)%Q).
      { unfold Qdiv. rewrite Qplus_0_l, Qmult_0_l, Qmult_0_l. reflexivity. }
      assert (H0 : (0 <= (0 + 0) / (0 + 0 + r) * 100)%Q).
      { rewrite Hz. discriminate. }
      rewrite (zeroIf_keeps H0) in Hjc. cbn [toFixed2] in Hjc.
      injection Hjc as Hjc. rewrite <- Hjc.
      apply zero_is_printed_zero, Hz.
  - rewrite Hsp in Hcast. cbn in Hcast. injection Hcast as Hcast.
    subst sp. reflexivity.
Qed.

(** A latitude or longitude of zero counts as missing.  [src/index.js]
    turns away a trip whose origin lies on the equator or on the prime
    meridian with [Origin coordinates are missing or invalid]; the
    revision that adds up distances refuses every update of a trip whose
    destination lies there, and stores nothing. *)
Theorem zero_coordinate_counts_as_missing :
  (forall id la lo now w bus r c la0 lo0,
      findBus (db w) id = Some bus ->
      checkRoute (db w) bus = Ok r ->
      routeStopDocs (db w) r <> [] ->
      coordinates (r_origin r) = Some c ->
      lat c = Some la0 -> lng c = Some lo0 ->
      (la0 == 0)%Q \/ (lo0 == 0)%Q ->
      Index.updateBusLocation id la lo now w
      = (Throw (Err updateFailed),
         addLine w "Error updating bus location:"
                 "Origin coordinates are missing or invalid"))
  /\ (forall id la lo now w bus dref s c la0 lo0,
         findBus (db w) id = Some bus ->
         Draft2.checkRouteEnds (db w) bus = Ok dref ->
         findStop (db w) dref = Some s ->
         coordinates s = Some c ->
         lat c = Some la0 -> lng c = Some lo0 ->
         (la0 == 0)%Q \/ (lo0 == 0)%Q ->
         Draft2.updateBusLocation id la lo now w
         = (Throw (Err updateFailed),
            addLine w "Error updating bus location:"
                    Draft2.destinationMissing)).
Proof.
  assert (Hfalsy : forall la0 lo0 : Q,
             (la0 == 0)%Q \/ (lo0 == 0)%Q ->
             truthy (Some la0) && truthy (Some lo0) = false).
  { intros la0 lo0 [Hz|Hz]; apply Qeq_bool_iff in Hz; cbn [truthy];
      rewrite Hz; [reflexivity | apply andb_false_r]. }
  split.
  - intros id la lo now w bus r c la0 lo0 Hb Hr Hs Hc Hla Hlo Hz.
    unfold Index.updateBusLocation, Index.tryBlock, rethrow. unfold_eff.
    rewrite Hb, Hr.
    destruct (routeStopDocs (db w) r) as [|s0 ss]; [congruence|].
    cbn [length Nat.eqb]. unfold Index.requireCoordinates.
    rewrite Hc, Hla, Hlo, (Hfalsy la0 lo0 Hz). reflexivity.
  - intros id la lo now w bus dref s c la0 lo0 Hb Hr Hs Hc Hla Hlo Hz.
    unfold Draft2.updateBusLocation, Draft2.tryBlock, rethrow. unfold_eff.
    rewrite Hb, Hr, Hs. unfold Draft2.requireDestination.
    rewrite Hc, Hla, Hlo, (Hfalsy la0 lo0 Hz). reflexivity.
Qed.

End WithGeo.

Lemma distance_is_last_hop_only_witness :
  exists b1 w1 b2 w2,
    Draft2.updateBusLocation (H := Fixture.gridGeo) "T1" 11 77 1000%Z
                             Fixture.w0 = (Ok (Some b1), w1)
    /\ Draft2.updateBusLocation (H := Fixture.gridGeo) "T1" (23 # 2) 77
                                2000%Z w1 = (Ok (Some b2), w2)
    /\ option_map Num (distanceTraveled b2)
       = Some (toFixed2
                 (Draft2.add (Num 0)
                    (Fixture.gridDistance (Num 11) (Num 77) (Num (23 # 2))
                                          (Num 77)))).
Proof.
  do 4 eexists. split; [lazy; reflexivity|]. split; [lazy; reflexivity|].
  refine (proj2 (@distance_is_last_hop_only Fixture.gridGeo)
                "T1" 11 77 1000%Z (23 # 2) 77 2000%Z Fixture.w0 _ _ _ _
                _ _ eq_refl eq_refl); discriminate.
Defined.

Lemma uncapped_completion_in_range_witness :
  exists bus' w' c,
    Draft2.updateBusLocation (H := Fixture.gridGeo) "T3" (23 # 2) 77
                             3605000%Z Fixture.w0 = (Ok (Some bus'), w')
    /\ journeyCompletion bus' = Some c /\ (0 <= c /\ c <= 100)%Q.
Proof.
  destruct (@uncapped_completion_in_range Fixture.gridGeo "T3" (23 # 2) 77
              3605000%Z Fixture.w0 _ _
              Sequence.grid_distance_non_negative eq_refl)
    as (c & r & t & Hc & Hr & _).
  do 3 eexists. split; [reflexivity|]. split; [exact Hc | exact Hr].
Defined.

Lemma first_report_stores_zero_witness :
  exists bus' w' t c,
    Draft2.updateBusLocation (H := Fixture.gridGeo) "T1" (23 # 2) 77 1000%Z
                             Fixture.w0 = (Ok (Some bus'), w')
    /\ distanceTraveled bus' = Some t /\ (t == 0)%Q
    /\ journeyCompletion bus' = Some c /\ (c == 0)%Q.
Proof.
  destruct (@first_report_stores_zero Fixture.gridGeo "T1" (23 # 2) 77 1000%Z
              Fixture.w0 _ (Fixture.newTrip "T1" "R1" 1%Z) _
              eq_refl (or_introl eq_refl) eq_refl)
    as (t & c & Ht & Ht0 & Hc & Hc0 & _).
  do 4 eexists. split; [reflexivity|].
  split; [exact Ht|]. split; [exact Ht0|]. split; [exact Hc | exact Hc0].
Defined.

Lemma zero_coordinate_counts_as_missing_witness :
  Index.updateBusLocation (H := Fixture.gridGeo) "TQ" (23 # 2) 77 1000%Z
                          Fixture2.w1
  = (Throw (Err updateFailed),
     addLine Fixture2.w1 "Error updating bus location:"
             "Origin coordinates are missing or invalid")
  /\ Draft2.updateBusLocation (H := Fixture.gridGeo) "TZ" (23 # 2) 77 1000%Z
                              Fixture2.w1
     = (Throw (Err updateFailed),
        addLine Fixture2.w1 "Error updating bus location:"
                Draft2.destinationMissing).
Proof.
  split.
  - apply (proj1 (@zero_coordinate_counts_as_missing Fixture.gridGeo)
                 "TQ" (23 # 2) 77 1000%Z Fixture2.w1
                 (Fixture.newTrip "TQ" "RQ" 7%Z)
                 {| r_origin := Fixture2.equatorStop;
                    r_destination := Fixture.stopAt "dest" 12 77;
                    r_stops := [ {| stopId := "equator" |};
                                 {| stopId := "dest" |} ];
                    r_totalDistance := 111 |}
                 {| lat := Some 0; lng := Some 77 |} 0 77);
      try reflexivity; [discriminate | left; reflexivity].
  - apply (proj2 (@zero_coordinate_counts_as_missing Fixture.gridGeo)
                 "TZ" (23 # 2) 77 1000%Z Fixture2.w1
                 (Fixture.newTrip "TZ" "RZ" 8%Z) "equator"
                 Fixture2.equatorStop
                 {| lat := Some 0; lng := Some 77 |} 0 77);
      try reflexivity. left. reflexivity.
Defined.

End Draft2Facts.
